(** * recaptcha_solver.py: the cross-frame interaction state machine

    A shallow embedding of the [RecaptchaSolver] class of
    [recaptcha_solver.py].  The Selenium driver is an external collaborator:
    it is taken as a parameter, a deterministic machine over an abstract
    [world] that answers every command either with a value or with an
    exception.  Every method of the class becomes a computation in a small
    monad that threads the driver's world, may raise, and records the
    commands it issues (the record a [unittest.mock.Mock] keeps of its calls).

    Calls to [self.logger] never touch the driver and cannot change the
    control flow, so they are left out.  Durations given to [time.sleep] are
    in milliseconds ([time.sleep(0.5)] is [Sleep 500]); wait budgets are in
    seconds, as in the source. *)

From Stdlib Require Import ZArith List String Bool Lia.
From Equations Require Import Equations.
Import ListNotations.
Open Scope Z_scope.

(** ** Values exchanged with the driver *)

Definition handle := string.
Definition selector := string.

Record WebElement := { element_id : string }.

(** The exception classes the module names, [IndexError] (from
    [window_handles[0]]), and [WebDriverException] for any other fault of the
    driver.  Everything a driver raises derives from [WebDriverException],
    hence from [Exception]; what the interpreter itself may raise outside
    that class ([KeyboardInterrupt], [SystemExit]) is no behaviour of the
    driver and is not modelled. *)
Inductive exn :=
| TimeoutException
| NoSuchElementException
| IndexError
| WebDriverException.

Inductive outcome (A : Type) :=
| Return (a : A)
| Raise (e : exn).
Arguments Return {A} a.
Arguments Raise {A} e.

(** [EC.presence_of_element_located] and [EC.element_to_be_clickable], both
    always used with [By.CSS_SELECTOR]. *)
Inductive expected_condition :=
| presence_of_element_located (sel : selector)
| element_to_be_clickable (sel : selector).

(** One entry per call the solver makes on the driver, on an element or on
    a [WebDriverWait] (a whole [until] is one entry, however often it polls
    the driver), and per [time.sleep]. *)
Inductive call :=
| GetWindowHandles
| SwitchToWindow (h : handle)
| SwitchToFrame (f : WebElement)
| SwitchToDefaultContent
| WaitUntil (budget : Z) (c : expected_condition)
| FindElement (sel : selector)
| Click (e : WebElement)
| Sleep (ms : Z).

(** ** The driver capability surface *)

Record Driver := {
  world : Type;
  window_handles : world -> outcome (list handle) * world;
  switch_to_window : handle -> world -> outcome unit * world;
  switch_to_frame : WebElement -> world -> outcome unit * world;
  switch_to_default_content : world -> outcome unit * world;
  (** [WebDriverWait(driver, budget).until(condition)] *)
  wait_until : Z -> expected_condition -> world -> outcome WebElement * world;
  (** [driver.find_element(By.CSS_SELECTOR, sel)] *)
  find_element : selector -> world -> outcome WebElement * world;
  click : WebElement -> world -> outcome unit * world;
  (** what the passing of time does to the page *)
  elapse : Z -> world -> world;
  (** the frames the session's focus is nested in; [[]] at top level *)
  frame_path : world -> list WebElement
}.

(** ** The solver's configuration ([__init__]) *)

Record RecaptchaSolver := {
  timeout : Z;
  CHECKBOX_IFRAME_SELECTOR : selector;
  CHECKBOX_SELECTOR : selector;
  CHECKBOX_CHECKED_SELECTOR : selector;
  CHALLENGE_IFRAME_SELECTORS : list selector;
  BUSTER_BUTTON_SELECTORS : list selector
}.

Definition init (timeout : Z) : RecaptchaSolver := {|
  timeout := timeout;
  CHECKBOX_IFRAME_SELECTOR := "iframe[title='reCAPTCHA']";
  CHECKBOX_SELECTOR := "#recaptcha-anchor";
  CHECKBOX_CHECKED_SELECTOR := "#recaptcha-anchor[aria-checked='true']";
  CHALLENGE_IFRAME_SELECTORS :=
    [ "iframe[title='recaptcha challenge expires in two minutes']";
      "iframe[title='recaptcha challenge']";
      "iframe[src*='bframe']" ];
  BUSTER_BUTTON_SELECTORS :=
    [ "div.help-button-holder";
      ".help-button-holder";
      "[class*='help-button']" ]
|}%string.

Definition is_TimeoutException (e : exn) : bool :=
  match e with TimeoutException => true | _ => false end.

Definition is_NoSuchElementException (e : exn) : bool :=
  match e with NoSuchElementException => true | _ => false end.

(** [except Exception] and the bare [except:] catch every modelled class. *)
Definition is_Exception (e : exn) : bool := true.

(** ** The methods of the class *)

Section Solver.

Variable D : Driver.

(** A computation: from the driver's world to an outcome, the calls issued
    (oldest first) and the world left behind.  When it raises, the calls and
    the world are those at the point of the raise. *)
Definition M (A : Type) : Type := world D -> outcome A * list call * world D.

Definition ret {A} (a : A) : M A := fun w => (Return a, [], w).

Definition raise {A} (e : exn) : M A := fun w => (Raise e, [], w).

Definition bind {A B} (m : M A) (k : A -> M B) : M B :=
  fun w =>
    match m w with
    | (Return a, t, w1) =>
        match k a w1 with
        | (r, t', w2) => (r, t ++ t', w2)
        end
    | (Raise e, t, w1) => (Raise e, t, w1)
    end.

Notation "x <- m ;; k" := (bind m (fun x => k))
  (at level 61, m at next level, right associativity).
Notation "m ;; k" := (bind m (fun _ => k))
  (at level 61, right associativity).

(** [try: body / except C: handler], for a class test [catches]. *)
Definition try_except {A} (body : M A) (catches : exn -> bool)
    (handler : exn -> M A) : M A :=
  fun w =>
    match body w with
    | (Return a, t, w1) => (Return a, t, w1)
    | (Raise e, t, w1) =>
        if catches e then
          match handler e w1 with
          | (r, t', w2) => (r, t ++ t', w2)
          end
        else (Raise e, t, w1)
    end.

(** [try: body / finally: cleanup]: the cleanup always runs; the body's
    outcome stands unless the cleanup itself raises. *)
Definition try_finally {A} (body : M A) (cleanup : M unit) : M A :=
  fun w =>
    match body w with
    | (r, t, w1) =>
        match cleanup w1 with
        | (Return _, t', w2) => (r, t ++ t', w2)
        | (Raise e, t', w2) => (Raise e, t ++ t', w2)
        end
    end.

(** A command to the driver: recorded, then answered by the driver. *)
Definition command {A} (c : call) (op : world D -> outcome A * world D) : M A :=
  fun w => match op w with (r, w1) => (r, [c], w1) end.

Definition driver_window_handles : M (list handle) :=
  command GetWindowHandles (window_handles D).

Definition driver_switch_to_window (h : handle) : M unit :=
  command (SwitchToWindow h) (switch_to_window D h).

Definition driver_switch_to_frame (f : WebElement) : M unit :=
  command (SwitchToFrame f) (switch_to_frame D f).

Definition driver_switch_to_default_content : M unit :=
  command SwitchToDefaultContent (switch_to_default_content D).

Definition until (budget : Z) (c : expected_condition) : M WebElement :=
  command (WaitUntil budget c) (wait_until D budget c).

Definition driver_find_element (sel : selector) : M WebElement :=
  command (FindElement sel) (find_element D sel).

Definition element_click (e : WebElement) : M unit :=
  command (Click e) (click D e).

Definition time_sleep (ms : Z) : M unit :=
  fun w => (Return tt, [Sleep ms], elapse D ms w).

Section Methods.

Variable self : RecaptchaSolver.

(** [window_handles] is a property: each mention asks the driver again. *)
Definition handle_extension_tabs : M unit :=
  handles <- driver_window_handles ;;
  if Z.of_nat (List.length handles) >? 1 then
    handles0 <- driver_window_handles ;;
    match handles0 with
    | [] => raise IndexError
    | h :: _ =>
        driver_switch_to_window h ;;
        time_sleep 500
    end
  else ret tt.

Definition find_recaptcha_checkbox_iframe : M (option WebElement) :=
  try_except
    (iframe <- until (timeout self)
                 (presence_of_element_located (CHECKBOX_IFRAME_SELECTOR self)) ;;
     ret (Some iframe))
    is_TimeoutException
    (fun _ => ret None).

Definition click_recaptcha_checkbox : M bool :=
  try_except
    (checkbox <- until (timeout self)
                   (element_to_be_clickable (CHECKBOX_SELECTOR self)) ;;
     element_click checkbox ;;
     ret true)
    is_TimeoutException
    (fun _ => ret false).

Definition is_recaptcha_solved : M bool :=
  try_except
    (driver_find_element (CHECKBOX_CHECKED_SELECTOR self) ;;
     ret true)
    is_NoSuchElementException
    (fun _ => ret false).

(** [for selector in ...: try: ... return iframe / except TimeoutException:
    continue], then [return None] after the loop. *)
Fixpoint find_challenge_iframe_from (selectors : list selector)
    : M (option WebElement) :=
  match selectors with
  | [] => ret None
  | selector :: rest =>
      try_except
        (iframe <- until (timeout self) (presence_of_element_located selector) ;;
         ret (Some iframe))
        is_TimeoutException
        (fun _ => find_challenge_iframe_from rest)
  end.

Definition find_challenge_iframe : M (option WebElement) :=
  find_challenge_iframe_from (CHALLENGE_IFRAME_SELECTORS self).

Fixpoint activate_buster_extension_from (selectors : list selector) : M bool :=
  match selectors with
  | [] => ret false
  | selector :: rest =>
      try_except
        (buster_button <- until (timeout self)
                            (element_to_be_clickable selector) ;;
         time_sleep 5000 ;;
         element_click buster_button ;;
         ret true)
        is_TimeoutException
        (fun _ => activate_buster_extension_from rest)
  end.

Definition activate_buster_extension : M bool :=
  activate_buster_extension_from (BUSTER_BUTTON_SELECTORS self).

Definition wait_for_solution (max_wait_time : Z) : M bool :=
  try_except
    (until max_wait_time
       (presence_of_element_located (CHECKBOX_CHECKED_SELECTOR self)) ;;
     ret true)
    is_TimeoutException
    (fun _ => ret false).

(** The challenge case of [solve_recaptcha]: the statements that follow the
    already-solved check, from the switch back to the main content on. *)
Definition solve_recaptcha_challenge (checkbox_iframe : WebElement)
    (max_wait_time : Z) : M bool :=
  driver_switch_to_default_content ;;
  challenge_iframe <- find_challenge_iframe ;;
  match challenge_iframe with
  | None => ret false
  | Some challenge_iframe =>
      driver_switch_to_frame challenge_iframe ;;
      activated <- activate_buster_extension ;;
      if negb activated then ret false else
      driver_switch_to_default_content ;;
      driver_switch_to_frame checkbox_iframe ;;
      wait_for_solution max_wait_time
  end.

(** The block under [try:] in [solve_recaptcha]. *)
Definition solve_recaptcha_body (max_wait_time : Z) : M bool :=
  handle_extension_tabs ;;
  checkbox_iframe <- find_recaptcha_checkbox_iframe ;;
  match checkbox_iframe with
  | None => ret false
  | Some checkbox_iframe =>
      driver_switch_to_frame checkbox_iframe ;;
      clicked <- click_recaptcha_checkbox ;;
      if negb clicked then ret false else
      time_sleep 2000 ;;
      solved <- is_recaptcha_solved ;;
      if solved then ret true else
      solve_recaptcha_challenge checkbox_iframe max_wait_time
  end.

(** The [finally:] block: [try: switch_to.default_content() / except: pass]. *)
Definition solve_recaptcha_cleanup : M unit :=
  try_except driver_switch_to_default_content is_Exception (fun _ => ret tt).

Definition solve_recaptcha (max_wait_time : Z) : M bool :=
  try_finally
    (try_except (solve_recaptcha_body max_wait_time)
       is_Exception
       (fun _ => ret false))
    solve_recaptcha_cleanup.

(** The [while attempts < max_attempts] loop, from the current value of
    [attempts]; [solve_recaptcha()] is called with its default budget. *)
Equations? solve_all_recaptchas_loop (max_attempts attempts : Z) : M bool
    by wf (Z.to_nat (max_attempts - attempts)) lt :=
  solve_all_recaptchas_loop max_attempts attempts
    with Z_lt_dec attempts max_attempts := {
    | left _ =>
        let attempts1 := attempts + 1 in
        solved <- solve_recaptcha 30 ;;
        if solved then ret true else
        (if attempts1 <? max_attempts then time_sleep 2000 else ret tt) ;;
        solve_all_recaptchas_loop max_attempts attempts1
    | right _ => ret false }.
Proof. lia. Qed.

Definition solve_all_recaptchas (max_attempts : Z) : M bool :=
  solve_all_recaptchas_loop max_attempts 0.

End Methods.

End Solver.

(** ** A scripted driver

    The driver the unit tests use: a mock whose successive answers are
    scripted ([side_effect]).  Each command takes the next reply of the
    script; a command answered normally moves the focus as the WebDriver
    protocol says, a command answered by a fault leaves it where it was.  An
    exhausted script, or a reply of the wrong shape, is a fault. *)

Inductive reply :=
| Done
| Found (e : WebElement)
| Handles (l : list handle)
| Fault (e : exn).

Record session := {
  script : list reply;
  focus : list WebElement
}.

Definition next_reply (s : session) : reply * session :=
  match script s with
  | [] => (Fault WebDriverException, s)
  | r :: rest => (r, {| script := rest; focus := focus s |})
  end.

Definition refocus (f : list WebElement -> list WebElement) (s : session)
    : outcome unit * session :=
  match next_reply s with
  | (Done, s1) => (Return tt, {| script := script s1; focus := f (focus s1) |})
  | (Fault e, s1) => (Raise e, s1)
  | (_, s1) => (Raise WebDriverException, s1)
  end.

Definition locate (s : session) : outcome WebElement * session :=
  match next_reply s with
  | (Found e, s1) => (Return e, s1)
  | (Fault e, s1) => (Raise e, s1)
  | (_, s1) => (Raise WebDriverException, s1)
  end.

Definition list_handles (s : session) : outcome (list handle) * session :=
  match next_reply s with
  | (Handles l, s1) => (Return l, s1)
  | (Fault e, s1) => (Raise e, s1)
  | (_, s1) => (Raise WebDriverException, s1)
  end.

Definition Scripted : Driver := {|
  world := session;
  window_handles := list_handles;
  switch_to_window := fun _ => refocus (fun _ => []);
  switch_to_frame := fun f => refocus (cons f);
  switch_to_default_content := refocus (fun _ => []);
  wait_until := fun _ _ => locate;
  find_element := fun _ => locate;
  click := fun _ => refocus (fun p => p);
  elapse := fun _ s => s;
  frame_path := focus
|}.

Definition play (replies : list reply) : world Scripted :=
  {| script := replies; focus := [] |}.

(** The session once the first [n] replies are consumed, focused in [path]. *)
Definition played (n : nat) (replies : list reply) (path : list WebElement)
    : world Scripted :=
  {| script := skipn n replies; focus := path |}.

(** * Vocabulary of the properties *)

Arguments ret {D A} a _.
Arguments raise {D A} e _.
Arguments bind {D A B} m k _.
Arguments try_except {D A} body catches handler _.
Arguments try_finally {D A} body cleanup _.

(** The calls of a record that move the session's focus. *)
Definition is_context_switch (c : call) : bool :=
  match c with
  | SwitchToWindow _ | SwitchToFrame _ | SwitchToDefaultContent => true
  | _ => false
  end.

Definition context_switches (t : list call) : list call :=
  filter is_context_switch t.

(** What the protocol promises of a switch to the top level that the driver
    answers normally. *)
Definition restores_top_level (D : Driver) : Prop :=
  forall w w', switch_to_default_content D w = (Return tt, w') ->
               frame_path D w' = [].

(** The boolean an attempt is surfaced as: a fault counts as [false]. *)
Definition surfaced (r : outcome bool) : bool :=
  match r with
  | Return b => b
  | Raise _ => false
  end.

(** In a record of [activate_buster_extension], every click comes right
    after the five second pause, itself right after the wait for the button:
    the record is made of lone waits (the button never became clickable)
    and of wait, pause, click triples. *)
Inductive well_delayed : list call -> Prop :=
| delayed_nil : well_delayed []
| delayed_wait budget c t :
    well_delayed t -> well_delayed (WaitUntil budget c :: t)
| delayed_click budget c e t :
    well_delayed t ->
    well_delayed (WaitUntil budget c :: Sleep 5000 :: Click e :: t).

(** Whether a wait or a query came back with an element. *)
Definition found (r : outcome WebElement) : bool :=
  match r with
  | Return _ => true
  | Raise _ => false
  end.

(** The calls a run issued. *)
Definition record_of {A W : Type} (x : outcome A * list call * W) : list call :=
  snd (fst x).

(** A price for each kind of call; the price of a wait may depend on its
    budget, the price of a sleep on its duration. *)
Record prices := {
  p_handles : Z;
  p_window : Z;
  p_frame : Z;
  p_default : Z;
  p_wait : Z -> Z;
  p_find : Z;
  p_click : Z;
  p_sleep : Z -> Z
}.

Definition price (p : prices) (c : call) : Z :=
  match c with
  | GetWindowHandles => p_handles p
  | SwitchToWindow _ => p_window p
  | SwitchToFrame _ => p_frame p
  | SwitchToDefaultContent => p_default p
  | WaitUntil budget _ => p_wait p budget
  | FindElement _ => p_find p
  | Click _ => p_click p
  | Sleep ms => p_sleep p ms
  end.

Definition spent (p : prices) (t : list call) : Z :=
  fold_right (fun c total => price p c + total) 0 t.

(** No call has a negative price. *)
Definition fair (p : prices) : Prop := forall c, 0 <= price p c.

(** Time, in milliseconds: a wait may block for its whole budget (given in
    seconds; a budget that is not positive expires at once), a sleep lasts
    its duration, the commands themselves are not counted. *)
Definition wall_clock : prices := {|
  p_handles := 0;
  p_window := 0;
  p_frame := 0;
  p_default := 0;
  p_wait := fun budget => Z.max 0 (1000 * budget);
  p_find := 0;
  p_click := 0;
  p_sleep := fun ms => Z.max 0 ms
|}.

(** One for each click dispatched. *)
Definition clicks : prices := {|
  p_handles := 0;
  p_window := 0;
  p_frame := 0;
  p_default := 0;
  p_wait := fun _ => 0;
  p_find := 0;
  p_click := 1;
  p_sleep := fun _ => 0
|}.

(** The most one attempt can spend, priced by [p]. *)
Definition attempt_ceiling (p : prices) (self : RecaptchaSolver)
    (max_wait_time : Z) : Z :=
  (2 * p_handles p + p_window p + p_sleep p 500)
  + p_wait p (timeout self)
  + p_frame p
  + (p_wait p (timeout self) + p_click p)
  + p_sleep p 2000
  + p_find p
  + (p_default p
     + Z.of_nat (List.length (CHALLENGE_IFRAME_SELECTORS self))
       * p_wait p (timeout self)
     + p_frame p
     + Z.of_nat (List.length (BUSTER_BUTTON_SELECTORS self))
       * (p_wait p (timeout self) + p_sleep p 5000 + p_click p)
     + p_default p + p_frame p + p_wait p max_wait_time)
  + p_default p.

(** The waits of a record. *)
Definition is_wait (c : call) : bool :=
  match c with
  | WaitUntil _ _ => true
  | _ => false
  end.


Section Vocabulary.

Variable D : Driver.
Variable self : RecaptchaSolver.

(** A run continued after the calls [t] were already issued. *)
Definition after {A} (t : list call) (x : outcome A * list call * world D)
    : outcome A * list call * world D :=
  match x with
  | (r, t', w) => (r, t ++ t', w)
  end.

Definition lookup_of (s : selector) : call :=
  WaitUntil (timeout self) (presence_of_element_located s).

Definition button_wait_of (s : selector) : call :=
  WaitUntil (timeout self) (element_to_be_clickable s).

(** Every candidate of the list misses: its wait for presence ends in
    [TimeoutException]. *)
Inductive lookups_time_out : list selector -> world D -> world D -> Prop :=
| time_out_nil w : lookups_time_out [] w w
| time_out_cons s rest w w1 w2 :
    wait_until D (timeout self) (presence_of_element_located s) w
      = (Raise TimeoutException, w1) ->
    lookups_time_out rest w1 w2 ->
    lookups_time_out (s :: rest) w w2.

(** A Buster candidate is passed over when its [try] block ends in
    [TimeoutException]: the button never became clickable, or it did and the
    click itself timed out. *)
Inductive passed_over (s : selector)
    : world D -> list call -> world D -> Prop :=
| never_clickable w w1 :
    wait_until D (timeout self) (element_to_be_clickable s) w
      = (Raise TimeoutException, w1) ->
    passed_over s w [button_wait_of s] w1
| click_timed_out w e w1 w2 :
    wait_until D (timeout self) (element_to_be_clickable s) w
      = (Return e, w1) ->
    click D e (elapse D 5000 w1) = (Raise TimeoutException, w2) ->
    passed_over s w [button_wait_of s; Sleep 5000; Click e] w2.

Inductive all_passed_over
    : list selector -> world D -> list call -> world D -> Prop :=
| passed_nil w : all_passed_over [] w [] w
| passed_cons s rest w t w1 t' w2 :
    passed_over s w t w1 ->
    all_passed_over rest w1 t' w2 ->
    all_passed_over (s :: rest) w (t ++ t') w2.

(** [attempts_run w k b t w']: from [w], [k] attempts in a row, the first
    [k - 1] failing and the last one returning [b], two seconds apart; [t]
    is the whole record and [w'] the world left behind. *)
Inductive attempts_run : world D -> nat -> bool -> list call -> world D -> Prop :=
| run_last w b t w' :
    solve_recaptcha D self 30 w = (Return b, t, w') ->
    attempts_run w 1 b t w'
| run_retry w t w1 k b t' w' :
    solve_recaptcha D self 30 w = (Return false, t, w1) ->
    attempts_run (elapse D 2000 w1) k b t' w' ->
    attempts_run w (S k) b (t ++ Sleep 2000 :: t') w'.

(** The record of an attempt up to and including the already-solved check,
    after the tab check left the record [t0]. *)
Definition solved_check_record (t0 : list call) (iframe anchor : WebElement)
    : list call :=
  t0 ++ [lookup_of (CHECKBOX_IFRAME_SELECTOR self);
         SwitchToFrame iframe;
         button_wait_of (CHECKBOX_SELECTOR self);
         Click anchor;
         Sleep 2000;
         FindElement (CHECKBOX_CHECKED_SELECTOR self)].

(** Every call of every run of [m] satisfies [P]. *)
Definition always (P : call -> Prop) {A} (m : M D A) : Prop :=
  forall w, Forall P (record_of (m w)).

(** No run of [m] spends more than [n], priced by [p]. *)
Definition within (p : prices) {A} (m : M D A) (n : Z) : Prop :=
  forall w, spent p (record_of (m w)) <= n.


End Vocabulary.

(** Elements and scripts for the scripted driver. *)
Module Fixtures.

Definition checkbox_iframe : WebElement := {| element_id := "checkbox-iframe" |}.
Definition checkbox : WebElement := {| element_id := "recaptcha-anchor" |}.
Definition challenge_iframe : WebElement := {| element_id := "bframe" |}.
Definition buster_button : WebElement := {| element_id := "help-button" |}.
Definition other_button : WebElement := {| element_id := "help-button-2" |}.

(** One tab, no widget on the page. *)
Definition no_widget : list reply :=
  [Handles ["tab1"%string]; Fault TimeoutException; Done].

(** One tab, the widget verifies on the click alone. *)
Definition easy_case : list reply :=
  [Handles ["tab1"%string]; Found checkbox_iframe; Done;
   Found checkbox; Done; Found checkbox; Done].

(** As [easy_case], but the closing switch to the top level faults. *)
Definition easy_case_stranded : list reply :=
  [Handles ["tab1"%string]; Found checkbox_iframe; Done;
   Found checkbox; Done; Found checkbox; Fault WebDriverException].

(** One tab, a challenge appears and Buster solves it. *)
Definition challenge_case : list reply :=
  [Handles ["tab1"%string]; Found checkbox_iframe; Done;
   Found checkbox; Done; Fault NoSuchElementException; Done;
   Found challenge_iframe; Done;
   Found buster_button; Done;
   Done; Done; Found checkbox; Done].

(** The context disappears under the solver right after the checkbox frame
    is entered. *)
Definition faulty_case : list reply :=
  [Handles ["tab1"%string]; Found checkbox_iframe; Done;
   Fault WebDriverException; Done].

(** Inside the challenge frame: the first Buster candidate becomes
    clickable, its click times out, the second candidate works. *)
Definition first_click_times_out : list reply :=
  [Found buster_button; Fault TimeoutException; Found other_button; Done].

(** Inside the challenge frame: the first candidate becomes clickable, its
    click times out, the other candidates never become clickable. *)
Definition only_click_times_out : list reply :=
  [Found buster_button; Fault TimeoutException;
   Fault TimeoutException; Fault TimeoutException].

(** Inside the challenge frame: two candidates miss, the third is found. *)
Definition third_candidate : list reply :=
  [Fault TimeoutException; Fault TimeoutException; Found challenge_iframe].

(** Every candidate misses. *)
Definition three_misses : list reply :=
  [Fault TimeoutException; Fault TimeoutException; Fault TimeoutException].

(** Three tabs are open. *)
Definition three_tabs : list reply :=
  [Handles ["tab1"; "tab2"; "tab3"]%string;
   Handles ["tab1"; "tab2"; "tab3"]%string; Done].

(** The checkbox frame is entered but the checkbox never becomes
    clickable. *)
Definition unclickable_case : list reply :=
  [Handles ["tab1"%string]; Found checkbox_iframe; Done;
   Fault TimeoutException; Done].

(** A challenge is expected but no challenge iframe shows up. *)
Definition no_challenge_case : list reply :=
  [Handles ["tab1"%string]; Found checkbox_iframe; Done;
   Found checkbox; Done; Fault NoSuchElementException; Done;
   Fault TimeoutException; Fault TimeoutException; Fault TimeoutException;
   Done].

(** The challenge iframe is entered but no Buster button is there. *)
Definition dead_buster_case : list reply :=
  [Handles ["tab1"%string]; Found checkbox_iframe; Done;
   Found checkbox; Done; Fault NoSuchElementException; Done;
   Found challenge_iframe; Done;
   Fault TimeoutException; Fault TimeoutException; Fault TimeoutException;
   Done].

(** Two tabs at the first reading, none at the second. *)
Definition tabs_vanish : list reply :=
  [Handles ["tab1"; "tab2"]%string; Handles []; Done].

(** Two tabs at the first reading, only the second of them at the second
    reading. *)
Definition tabs_change : list reply :=
  [Handles ["tab1"; "tab2"]%string; Handles ["tab2"%string]; Done].

(** The first challenge candidate misses, the second lookup faults. *)
Definition lookup_faults : list reply :=
  [Fault TimeoutException; Fault WebDriverException; Found challenge_iframe].

End Fixtures.

(** * Properties *)

Lemma Scripted_restores_top_level : restores_top_level Scripted.
Proof.
  intros [sc fo] w'. cbn. unfold refocus, next_reply. cbn.
  destruct sc as [|[ | | | ] rest]; cbn; intros H; inversion H; reflexivity.
Qed.

Section Properties.

Variable D : Driver.
Variable self : RecaptchaSolver.

(** ** Stepping through a computation *)

Lemma bind_return {A B} (m : M D A) (k : A -> M D B) w a t w1 :
  m w = (Return a, t, w1) ->
  bind m k w = after D t (k a w1).
Proof. unfold bind, after. intros ->. reflexivity. Qed.

Lemma bind_raise {A B} (m : M D A) (k : A -> M D B) w e t w1 :
  m w = (Raise e, t, w1) ->
  bind m k w = (Raise e, t, w1).
Proof. unfold bind. intros ->. reflexivity. Qed.

Lemma after_after {A} t t' (x : outcome A * list call * world D) :
  after D t (after D t' x) = after D (t ++ t') x.
Proof. destruct x as [[r t''] w]. cbn. now rewrite app_assoc. Qed.

Lemma command_run {A} (c : call) (op : world D -> outcome A * world D)
    w r w1 :
  op w = (r, w1) ->
  command D c op w = (r, [c], w1).
Proof. unfold command. now intros ->. Qed.

(** ** The attempt boundary *)

Lemma solve_recaptcha_unfold (max_wait_time : Z) (w : world D) :
  solve_recaptcha D self max_wait_time w =
  (Return (surfaced (fst (fst (solve_recaptcha_body D self max_wait_time w)))),
   snd (fst (solve_recaptcha_body D self max_wait_time w))
     ++ [SwitchToDefaultContent],
   snd (switch_to_default_content D
          (snd (solve_recaptcha_body D self max_wait_time w)))).
Proof.
  unfold solve_recaptcha, solve_recaptcha_cleanup, try_finally, try_except,
    driver_switch_to_default_content, command, is_Exception, ret.
  destruct (solve_recaptcha_body D self max_wait_time w) as [[[b|e] t] w1];
    cbn [fst snd surfaced];
    destruct (switch_to_default_content D w1) as [[[]|e'] w2];
    cbn [fst snd]; rewrite ?app_nil_r; reflexivity.
Qed.

Lemma solve_all_recaptchas_loop_step (max_attempts attempts : Z) :
  solve_all_recaptchas_loop D self max_attempts attempts =
  if attempts <? max_attempts then
    bind (solve_recaptcha D self 30) (fun solved : bool =>
      if solved then ret true else
      bind (if attempts + 1 <? max_attempts then time_sleep D 2000 else ret tt)
        (fun _ => solve_all_recaptchas_loop D self max_attempts (attempts + 1)))
  else ret false.
Proof.
  rewrite solve_all_recaptchas_loop_equation_1.
  destruct (Z_lt_dec attempts max_attempts) as [Hlt|Hge]; cbn.
  - apply Z.ltb_lt in Hlt. rewrite Hlt. reflexivity.
  - apply Z.ltb_nlt in Hge. rewrite Hge. reflexivity.
Qed.

Lemma solve_all_recaptchas_loop_returns (max_attempts : Z) (n : nat) :
  forall attempts w,
    (max_attempts - attempts <= Z.of_nat n) ->
    exists b t w',
      solve_all_recaptchas_loop D self max_attempts attempts w
      = (Return b, t, w').
Proof.
  induction n as [|n IH]; intros attempts w Hn;
    rewrite solve_all_recaptchas_loop_step.
  - replace (attempts <? max_attempts) with false
      by (symmetry; apply Z.ltb_ge; lia).
    now exists false, [], w.
  - destruct (attempts <? max_attempts) eqn:Hlt; [|now exists false, [], w].
    unfold bind at 1. rewrite solve_recaptcha_unfold.
    destruct (surfaced _); [unfold ret; eauto|].
    set (w1 := snd (switch_to_default_content D _)).
    unfold bind.
    destruct (attempts + 1 <? max_attempts); unfold time_sleep, ret.
    + destruct (IH (attempts + 1) (elapse D 2000 w1)) as (b & t & w' & E);
        [lia|]. rewrite E. eauto.
    + destruct (IH (attempts + 1) w1) as (b & t & w' & E); [lia|].
      rewrite E. eauto.
Qed.

(** C6: whatever the driver does, [solve_recaptcha] and
    [solve_all_recaptchas] hand a boolean back to the caller and never an
    exception; when a stage of the attempt raises, the attempt is surfaced
    as [false]. *)
Theorem public_operations_never_raise
    (max_wait_time max_attempts : Z) (w : world D) :
  (exists b t w', solve_recaptcha D self max_wait_time w = (Return b, t, w'))
  /\ (exists b t w',
        solve_all_recaptchas D self max_attempts w = (Return b, t, w'))
  /\ (forall e t w1,
        solve_recaptcha_body D self max_wait_time w = (Raise e, t, w1) ->
        exists t' w',
          solve_recaptcha D self max_wait_time w = (Return false, t', w')).
Proof.
  repeat split.
  - rewrite solve_recaptcha_unfold. eauto.
  - unfold solve_all_recaptchas.
    apply (solve_all_recaptchas_loop_returns max_attempts
             (Z.to_nat max_attempts)). lia.
  - intros e t w1 E. rewrite solve_recaptcha_unfold, E. cbn. eauto.
Qed.

(** ** Single stages *)

Lemma find_recaptcha_checkbox_iframe_run (w : world D) :
  find_recaptcha_checkbox_iframe D self w =
  match wait_until D (timeout self)
          (presence_of_element_located (CHECKBOX_IFRAME_SELECTOR self)) w with
  | (Return iframe, w1) =>
      (Return (Some iframe), [lookup_of self (CHECKBOX_IFRAME_SELECTOR self)], w1)
  | (Raise TimeoutException, w1) =>
      (Return None, [lookup_of self (CHECKBOX_IFRAME_SELECTOR self)], w1)
  | (Raise e, w1) =>
      (Raise e, [lookup_of self (CHECKBOX_IFRAME_SELECTOR self)], w1)
  end.
Proof.
  unfold find_recaptcha_checkbox_iframe, try_except, bind, until, command, ret,
    lookup_of.
  destruct (wait_until D _ _ w) as [[iframe|[]] w1]; reflexivity.
Qed.

Lemma click_recaptcha_checkbox_clicked (w w1 w2 : world D) (e : WebElement) :
  wait_until D (timeout self)
    (element_to_be_clickable (CHECKBOX_SELECTOR self)) w = (Return e, w1) ->
  click D e w1 = (Return tt, w2) ->
  click_recaptcha_checkbox D self w =
  (Return true, [button_wait_of self (CHECKBOX_SELECTOR self); Click e], w2).
Proof.
  intros Hw Hc.
  unfold click_recaptcha_checkbox, try_except, bind, until, element_click,
    command, ret, button_wait_of.
  rewrite Hw, Hc. reflexivity.
Qed.

Lemma is_recaptcha_solved_run (w : world D) :
  is_recaptcha_solved D self w =
  match find_element D (CHECKBOX_CHECKED_SELECTOR self) w with
  | (Return _, w1) =>
      (Return true, [FindElement (CHECKBOX_CHECKED_SELECTOR self)], w1)
  | (Raise NoSuchElementException, w1) =>
      (Return false, [FindElement (CHECKBOX_CHECKED_SELECTOR self)], w1)
  | (Raise e, w1) =>
      (Raise e, [FindElement (CHECKBOX_CHECKED_SELECTOR self)], w1)
  end.
Proof.
  unfold is_recaptcha_solved, try_except, bind, driver_find_element, command,
    ret.
  destruct (find_element D _ w) as [[e|[]] w1]; reflexivity.
Qed.

Lemma wait_for_solution_run (max_wait_time : Z) (w : world D) :
  wait_for_solution D self max_wait_time w =
  match wait_until D max_wait_time
          (presence_of_element_located (CHECKBOX_CHECKED_SELECTOR self)) w with
  | (Return _, w1) =>
      (Return true,
       [WaitUntil max_wait_time
          (presence_of_element_located (CHECKBOX_CHECKED_SELECTOR self))], w1)
  | (Raise TimeoutException, w1) =>
      (Return false,
       [WaitUntil max_wait_time
          (presence_of_element_located (CHECKBOX_CHECKED_SELECTOR self))], w1)
  | (Raise e, w1) =>
      (Raise e,
       [WaitUntil max_wait_time
          (presence_of_element_located (CHECKBOX_CHECKED_SELECTOR self))], w1)
  end.
Proof.
  unfold wait_for_solution, try_except, bind, until, command, ret.
  destruct (wait_until D _ _ w) as [[e|[]] w1]; reflexivity.
Qed.

(** ** The exits of an attempt *)

(** C1, as amended: every run of [solve_recaptcha] ends with the switch to
    the top level, issued after everything the attempt did, on the world the
    attempt left; when the driver answers that last switch normally the
    session's focus is at the top level afterwards.  (A fault of that last
    switch is swallowed, and the focus is then wherever the driver left
    it.) *)
Theorem solve_recaptcha_ends_with_top_level_switch
    (Hdriver : restores_top_level D) (max_wait_time : Z) (w : world D) :
  exists b t w1 r w',
    try_except (solve_recaptcha_body D self max_wait_time) is_Exception
      (fun _ => ret false) w = (Return b, t, w1)
    /\ switch_to_default_content D w1 = (r, w')
    /\ solve_recaptcha D self max_wait_time w
       = (Return b, t ++ [SwitchToDefaultContent], w')
    /\ (r = Return tt -> frame_path D w' = []).
Proof.
  rewrite solve_recaptcha_unfold.
  unfold try_except, is_Exception, ret.
  destruct (solve_recaptcha_body D self max_wait_time w) as [[[b|e] t] w1];
    cbn [fst snd surfaced];
    destruct (switch_to_default_content D w1) as [r w'] eqn:Hsw;
    cbn [snd].
  - exists b, t, w1, r, w'. repeat split; trivial.
    intros ->. eapply Hdriver, Hsw.
  - exists false, (t ++ []), w1, r, w'. rewrite app_nil_r.
    repeat split; trivial.
    intros ->. eapply Hdriver, Hsw.
Qed.

(** C4: when no checkbox iframe is found within the budget the attempt
    returns [false] at once: after the lookup the only call is the closing
    switch to the top level. *)
Theorem no_checkbox_iframe_fails_fast
    (max_wait_time : Z) (w w0 w1 : world D) (t0 t1 : list call) :
  handle_extension_tabs D w = (Return tt, t0, w0) ->
  find_recaptcha_checkbox_iframe D self w0 = (Return None, t1, w1) ->
  solve_recaptcha D self max_wait_time w
  = (Return false,
     t0 ++ [lookup_of self (CHECKBOX_IFRAME_SELECTOR self);
            SwitchToDefaultContent],
     snd (switch_to_default_content D w1)).
Proof.
  intros Htabs Hfind.
  assert (Ht1 : t1 = [lookup_of self (CHECKBOX_IFRAME_SELECTOR self)]).
  { rewrite find_recaptcha_checkbox_iframe_run in Hfind.
    destruct (wait_until D _ _ w0) as [[iframe|[]] w2];
      inversion Hfind; reflexivity. }
  subst t1.
  assert (Hbody : solve_recaptcha_body D self max_wait_time w
                  = (Return false,
                     t0 ++ [lookup_of self (CHECKBOX_IFRAME_SELECTOR self)],
                     w1)).
  { unfold solve_recaptcha_body.
    rewrite (bind_return _ _ _ _ _ _ Htabs).
    rewrite (bind_return _ _ _ _ _ _ Hfind).
    unfold ret, after. now rewrite app_nil_r. }
  rewrite solve_recaptcha_unfold, Hbody. cbn [fst snd surfaced].
  now rewrite <- app_assoc.
Qed.

(** ** Auxiliary tabs *)

Lemma handle_extension_tabs_second_reading
    (handles handles' : list handle) (w w1 w2 : world D) :
  window_handles D w = (Return handles, w1) ->
  (List.length handles > 1)%nat ->
  window_handles D w1 = (Return handles', w2) ->
  handle_extension_tabs D w
  = match handles' with
    | [] => (Raise IndexError, [GetWindowHandles; GetWindowHandles], w2)
    | h :: _ =>
        match switch_to_window D h w2 with
        | (Return _, w3) =>
            (Return tt,
             [GetWindowHandles; GetWindowHandles; SwitchToWindow h; Sleep 500],
             elapse D 500 w3)
        | (Raise e, w3) =>
            (Raise e,
             [GetWindowHandles; GetWindowHandles; SwitchToWindow h], w3)
        end
    end.
Proof.
  intros Hw Hlen Hw1. unfold handle_extension_tabs, driver_window_handles.
  rewrite (bind_return _ _ _ _ _ _ (command_run _ _ _ _ _ Hw)).
  replace (Z.of_nat (List.length handles) >? 1) with true
    by (symmetry; apply Z.gtb_lt; lia).
  rewrite (bind_return _ _ _ _ _ _ (command_run _ _ _ _ _ Hw1)).
  destruct handles' as [|h rest]; [reflexivity|].
  unfold bind, driver_switch_to_window, time_sleep, after, command.
  destruct (switch_to_window D h w2) as [[[]|e] w3]; reflexivity.
Qed.

(** C7: with a single window handle [handle_extension_tabs] does nothing
    beyond reading the handles.  With more than one, however many, it sends
    the driver one switch, to the first handle: its outcome and the world it
    leaves are those of that switch (followed by the half second pause when
    the driver answers normally), and that switch is the only context switch
    of its record. *)
Theorem handle_extension_tabs_switches_once
    (handles : list handle) (w w1 : world D) :
  window_handles D w = (Return handles, w1) ->
  (List.length handles = 1%nat ->
   handle_extension_tabs D w = (Return tt, [GetWindowHandles], w1))
  /\ (forall w2,
        (List.length handles > 1)%nat ->
        window_handles D w1 = (Return handles, w2) ->
        handle_extension_tabs D w
        = match switch_to_window D (hd ""%string handles) w2 with
          | (Return _, w3) =>
              (Return tt,
               [GetWindowHandles; GetWindowHandles;
                SwitchToWindow (hd ""%string handles); Sleep 500],
               elapse D 500 w3)
          | (Raise e, w3) =>
              (Raise e,
               [GetWindowHandles; GetWindowHandles;
                SwitchToWindow (hd ""%string handles)],
               w3)
          end
        /\ context_switches (record_of (handle_extension_tabs D w))
           = [SwitchToWindow (hd ""%string handles)]).
Proof.
  intros Hw. split.
  - intros Hlen. unfold handle_extension_tabs, driver_window_handles.
    rewrite (bind_return _ _ _ _ _ _ (command_run _ _ _ _ _ Hw)).
    rewrite Hlen. reflexivity.
  - intros w2 Hlen Hw1.
    rewrite (handle_extension_tabs_second_reading _ _ _ _ _ Hw Hlen Hw1).
    destruct handles as [|h rest]; [cbn in Hlen; lia|]. cbn [hd].
    split; [reflexivity|].
    destruct (switch_to_window D h w2) as [[[]|e] w3]; reflexivity.
Qed.

(** ** The retry loop *)

Lemma attempts_run_positive (w w' : world D) k b t :
  attempts_run D self w k b t w' -> (1 <= k)%nat.
Proof. destruct 1; lia. Qed.

Lemma solve_all_recaptchas_loop_exit (max_attempts attempts : Z) w :
  max_attempts <= attempts ->
  solve_all_recaptchas_loop D self max_attempts attempts w
  = (Return false, [], w).
Proof.
  intros H. rewrite solve_all_recaptchas_loop_step.
  replace (attempts <? max_attempts) with false
    by (symmetry; apply Z.ltb_ge; lia).
  reflexivity.
Qed.

Lemma solve_all_recaptchas_loop_follows (max_attempts : Z) w k b t w' :
  attempts_run D self w k b t w' ->
  forall attempts,
    (b = true -> attempts + Z.of_nat k <= max_attempts) ->
    (b = false -> attempts + Z.of_nat k = max_attempts) ->
    solve_all_recaptchas_loop D self max_attempts attempts w
    = (Return b, t, w').
Proof.
  induction 1 as [w b t w' Hsolve | w t w1 k b t' w' Hsolve Hrun IH];
    intros attempts Htrue Hfalse; rewrite solve_all_recaptchas_loop_step.
  - replace (attempts <? max_attempts) with true
      by (symmetry; apply Z.ltb_lt; destruct b; [specialize (Htrue eq_refl)
          | specialize (Hfalse eq_refl)]; lia).
    rewrite (bind_return _ _ _ _ _ _ Hsolve).
    destruct b.
    + unfold ret, after. now rewrite app_nil_r.
    + replace (attempts + 1 <? max_attempts) with false
        by (symmetry; apply Z.ltb_ge; specialize (Hfalse eq_refl); lia).
      unfold bind, ret.
      rewrite solve_all_recaptchas_loop_exit
        by (specialize (Hfalse eq_refl); lia).
      unfold after. cbn. now rewrite app_nil_r.
  - pose proof (attempts_run_positive _ _ _ _ _ Hrun) as Hk.
    assert (Hlt : attempts + 1 < max_attempts)
      by (destruct b; [specialize (Htrue eq_refl)
                      | specialize (Hfalse eq_refl)]; lia).
    replace (attempts <? max_attempts) with true
      by (symmetry; apply Z.ltb_lt; lia).
    rewrite (bind_return _ _ _ _ _ _ Hsolve).
    replace (attempts + 1 <? max_attempts) with true
      by (symmetry; apply Z.ltb_lt; lia).
    unfold bind, time_sleep.
    rewrite (IH (attempts + 1))
      by (intros Hb;
          first [specialize (Htrue Hb) | specialize (Hfalse Hb)]; lia).
    reflexivity.
Qed.

Lemma solve_all_recaptchas_loop_runs (max_attempts : Z) (n : nat) :
  forall attempts w,
    attempts < max_attempts ->
    max_attempts - attempts <= Z.of_nat n ->
    exists k b t w',
      solve_all_recaptchas_loop D self max_attempts attempts w
      = (Return b, t, w')
      /\ attempts_run D self w k b t w'
      /\ attempts + Z.of_nat k <= max_attempts
      /\ (b = false -> attempts + Z.of_nat k = max_attempts).
Proof.
  induction n as [|n IH]; intros attempts w Hlt Hn; [lia|].
  destruct (solve_recaptcha D self 30 w) as [[r t] w1] eqn:Hsolve.
  assert (Hr : exists b, r = Return b).
  { rewrite solve_recaptcha_unfold in Hsolve. inversion Hsolve. eauto. }
  destruct Hr as [b ->].
  destruct b.
  - exists 1%nat, true, t, w1. repeat split.
    + apply (solve_all_recaptchas_loop_follows _ _ 1%nat);
        [now constructor|lia|discriminate].
    + now constructor.
    + lia.
    + discriminate.
  - destruct (Z.eq_dec (attempts + 1) max_attempts) as [Heq|Hne].
    + exists 1%nat, false, t, w1. repeat split.
      * apply (solve_all_recaptchas_loop_follows _ _ 1%nat);
          [now constructor|discriminate|lia].
      * now constructor.
      * lia.
      * lia.
    + destruct (IH (attempts + 1) (elapse D 2000 w1))
        as (k & b & t' & w' & Hloop & Hrun & Hle & Hfalse); [lia|lia|].
      exists (S k), b, (t ++ Sleep 2000 :: t'), w'.
      assert (Hrun' : attempts_run D self w (S k) b (t ++ Sleep 2000 :: t') w')
        by (econstructor; eassumption).
      repeat split.
      * apply (solve_all_recaptchas_loop_follows _ _ _ _ _ _ Hrun');
          intros Hb; [|specialize (Hfalse Hb)]; lia.
      * assumption.
      * lia.
      * intros Hb. specialize (Hfalse Hb). lia.
Qed.

(** C3: for [max_attempts >= 1], [solve_all_recaptchas] makes between one
    and [max_attempts] attempts, two seconds apart, and stops at the first
    that succeeds: if attempt [k] is the first to succeed it returns [true]
    after exactly these [k] attempts, and if all of [max_attempts] attempts
    fail it returns [false] after exactly these. *)
Theorem solve_all_recaptchas_bounded_retry
    (max_attempts : Z) (w : world D) :
  1 <= max_attempts ->
  (forall k t w',
      attempts_run D self w k true t w' ->
      Z.of_nat k <= max_attempts ->
      solve_all_recaptchas D self max_attempts w = (Return true, t, w'))
  /\ (forall t w',
        attempts_run D self w (Z.to_nat max_attempts) false t w' ->
        solve_all_recaptchas D self max_attempts w = (Return false, t, w'))
  /\ (exists k b t w',
        solve_all_recaptchas D self max_attempts w = (Return b, t, w')
        /\ attempts_run D self w k b t w'
        /\ (1 <= k)%nat /\ Z.of_nat k <= max_attempts
        /\ (b = false -> Z.of_nat k = max_attempts)).
Proof.
  intros Hmax. unfold solve_all_recaptchas. repeat split.
  - intros k t w' Hrun Hk.
    apply (solve_all_recaptchas_loop_follows _ _ _ _ _ _ Hrun);
      [lia|discriminate].
  - intros t w' Hrun.
    apply (solve_all_recaptchas_loop_follows _ _ _ _ _ _ Hrun);
      [discriminate|lia].
  - destruct (solve_all_recaptchas_loop_runs max_attempts
                (Z.to_nat max_attempts) 0 w)
      as (k & b & t & w' & Hloop & Hrun & Hle & Hfalse); [lia|lia|].
    exists k, b, t, w'.
    split; [exact Hloop|]. split; [exact Hrun|].
    split; [eapply attempts_run_positive, Hrun|]. split; [lia|].
    intros Hb. specialize (Hfalse Hb). lia.
Qed.

(** C9: for [max_attempts <= 0] the loop body is never entered:
    [solve_all_recaptchas] returns [false] with an empty record of calls and
    the driver untouched. *)
Theorem solve_all_recaptchas_no_attempt (max_attempts : Z) (w : world D) :
  max_attempts <= 0 ->
  solve_all_recaptchas D self max_attempts w = (Return false, [], w).
Proof.
  intros H. unfold solve_all_recaptchas.
  now apply solve_all_recaptchas_loop_exit.
Qed.

(** ** The already-solved check *)

Lemma solve_recaptcha_body_clicked
    (max_wait_time : Z) (w w0 w1 w2 w3 w4 : world D) (t0 : list call)
    (iframe anchor : WebElement) :
  handle_extension_tabs D w = (Return tt, t0, w0) ->
  wait_until D (timeout self)
    (presence_of_element_located (CHECKBOX_IFRAME_SELECTOR self)) w0
    = (Return iframe, w1) ->
  switch_to_frame D iframe w1 = (Return tt, w2) ->
  wait_until D (timeout self)
    (element_to_be_clickable (CHECKBOX_SELECTOR self)) w2
    = (Return anchor, w3) ->
  click D anchor w3 = (Return tt, w4) ->
  solve_recaptcha_body D self max_wait_time w
  = after D (t0 ++ [lookup_of self (CHECKBOX_IFRAME_SELECTOR self);
                    SwitchToFrame iframe;
                    button_wait_of self (CHECKBOX_SELECTOR self);
                    Click anchor;
                    Sleep 2000])
      (bind (is_recaptcha_solved D self)
         (fun solved : bool =>
            if solved then ret true
            else solve_recaptcha_challenge D self iframe max_wait_time)
         (elapse D 2000 w4)).
Proof.
  intros Htabs Hiframe Hframe Hanchor Hclick.
  unfold solve_recaptcha_body.
  rewrite (bind_return _ _ _ _ _ _ Htabs).
  erewrite bind_return
    by (rewrite find_recaptcha_checkbox_iframe_run, Hiframe; reflexivity).
  cbv beta iota. unfold driver_switch_to_frame.
  rewrite (bind_return _ _ _ _ _ _ (command_run _ _ _ _ _ Hframe)).
  rewrite (bind_return _ _ _ _ _ _
             (click_recaptcha_checkbox_clicked _ _ _ _ Hanchor Hclick)).
  cbn [negb].
  erewrite bind_return by reflexivity.
  rewrite !after_after, <- !app_assoc. reflexivity.
Qed.

(** C2: when the checkbox iframe is found, the checkbox clicked and, two
    seconds later, the checked-state selector matches, [solve_recaptcha]
    returns [true]; after that query the only call is the closing switch to
    the top level: no challenge lookup, no activation. *)
Theorem already_solved_returns_at_once
    (max_wait_time : Z) (w w0 w1 w2 w3 w4 w5 : world D) (t0 : list call)
    (iframe anchor mark : WebElement) :
  handle_extension_tabs D w = (Return tt, t0, w0) ->
  wait_until D (timeout self)
    (presence_of_element_located (CHECKBOX_IFRAME_SELECTOR self)) w0
    = (Return iframe, w1) ->
  switch_to_frame D iframe w1 = (Return tt, w2) ->
  wait_until D (timeout self)
    (element_to_be_clickable (CHECKBOX_SELECTOR self)) w2
    = (Return anchor, w3) ->
  click D anchor w3 = (Return tt, w4) ->
  find_element D (CHECKBOX_CHECKED_SELECTOR self) (elapse D 2000 w4)
    = (Return mark, w5) ->
  solve_recaptcha D self max_wait_time w
  = (Return true,
     t0 ++ [lookup_of self (CHECKBOX_IFRAME_SELECTOR self);
            SwitchToFrame iframe;
            button_wait_of self (CHECKBOX_SELECTOR self);
            Click anchor;
            Sleep 2000;
            FindElement (CHECKBOX_CHECKED_SELECTOR self);
            SwitchToDefaultContent],
     snd (switch_to_default_content D w5)).
Proof.
  intros Htabs Hiframe Hframe Hanchor Hclick Hmark.
  rewrite solve_recaptcha_unfold.
  rewrite (solve_recaptcha_body_clicked _ _ _ _ _ _ _ _ _ _
             Htabs Hiframe Hframe Hanchor Hclick).
  erewrite bind_return
    by (rewrite is_recaptcha_solved_run, Hmark; reflexivity).
  cbv beta iota. unfold ret, after. cbn [fst snd surfaced].
  rewrite app_nil_r, <- !app_assoc. reflexivity.
Qed.

Lemma solve_recaptcha_challenge_starts_at_top
    (iframe : WebElement) (max_wait_time : Z) (w : world D) :
  exists r t w',
    solve_recaptcha_challenge D self iframe max_wait_time w
    = (r, SwitchToDefaultContent :: t, w')
    /\ forall w1 s rest,
         switch_to_default_content D w = (Return tt, w1) ->
         CHALLENGE_IFRAME_SELECTORS self = s :: rest ->
         exists t', t = lookup_of self s :: t'.
Proof.
  unfold solve_recaptcha_challenge, driver_switch_to_default_content.
  destruct (switch_to_default_content D w) as [[[]|e] w1] eqn:Hsw.
  - rewrite (bind_return _ _ _ _ _ _ (command_run _ _ _ _ _ Hsw)).
    match goal with
    | |- context [after D _ ?x] => destruct x as [[r t] w'] eqn:Hrest
    end.
    exists r, t, w'. split; [reflexivity|].
    intros w2 s rest Hw2 Hsels. inversion Hw2; subst w2.
    revert Hrest. unfold find_challenge_iframe. rewrite Hsels.
    cbn [find_challenge_iframe_from].
    unfold bind at 1, try_except, bind at 1, until, command, lookup_of.
    destruct (wait_until D _ _ w1) as [[e|e] w3].
    + cbn [ret]. destruct (bind _ _ w3) as [[r' t'] w4].
      intros H; inversion H. eauto.
    + destruct (is_TimeoutException e).
      * destruct (find_challenge_iframe_from D self rest w3) as [[[o|e'] t1] w4].
        -- destruct (_ w4) as [[r' t'] w5]. intros H; inversion H. eauto.
        -- intros H; inversion H. eauto.
      * intros H; inversion H. eauto.
  - rewrite (bind_raise _ _ _ _ _ _ (command_run _ _ _ _ _ Hsw)).
    exists (Raise e), [], w1. split; [reflexivity|]. discriminate.
Qed.

(** C10: [is_recaptcha_solved] is one [find_element] and nothing else, and
    answers [true] exactly when that query finds the checked-state selector;
    [wait_for_solution] is one wait for the same selector under
    [max_wait_time]; and in [solve_recaptcha], when the query made two
    seconds after the click misses, the attempt goes on with the challenge
    case (back to the top level, then the challenge lookup), whatever the
    widget does later. *)
Theorem instant_check_decides_the_case
    (max_wait_time : Z) (w w0 w1 w2 w3 w4 w5 : world D) (t0 : list call)
    (iframe anchor : WebElement) :
  handle_extension_tabs D w = (Return tt, t0, w0) ->
  wait_until D (timeout self)
    (presence_of_element_located (CHECKBOX_IFRAME_SELECTOR self)) w0
    = (Return iframe, w1) ->
  switch_to_frame D iframe w1 = (Return tt, w2) ->
  wait_until D (timeout self)
    (element_to_be_clickable (CHECKBOX_SELECTOR self)) w2
    = (Return anchor, w3) ->
  click D anchor w3 = (Return tt, w4) ->
  find_element D (CHECKBOX_CHECKED_SELECTOR self) (elapse D 2000 w4)
    = (Raise NoSuchElementException, w5) ->
  (forall v, exists r v1,
      is_recaptcha_solved D self v
      = (r, [FindElement (CHECKBOX_CHECKED_SELECTOR self)], v1)
      /\ (r = Return true <->
          exists e, find_element D (CHECKBOX_CHECKED_SELECTOR self) v
                    = (Return e, v1)))
  /\ (forall budget v, exists r v1,
        wait_for_solution D self budget v
        = (r, [WaitUntil budget
                 (presence_of_element_located (CHECKBOX_CHECKED_SELECTOR self))],
           v1)
        /\ (r = Return true <->
            exists e, wait_until D budget
                        (presence_of_element_located
                           (CHECKBOX_CHECKED_SELECTOR self)) v
                      = (Return e, v1)))
  /\ (exists b t w',
        solve_recaptcha D self max_wait_time w
        = (Return b,
           t0 ++ [lookup_of self (CHECKBOX_IFRAME_SELECTOR self);
                  SwitchToFrame iframe;
                  button_wait_of self (CHECKBOX_SELECTOR self);
                  Click anchor;
                  Sleep 2000;
                  FindElement (CHECKBOX_CHECKED_SELECTOR self);
                  SwitchToDefaultContent]
              ++ t ++ [SwitchToDefaultContent],
           w')
        /\ forall w6 s rest,
             switch_to_default_content D w5 = (Return tt, w6) ->
             CHALLENGE_IFRAME_SELECTORS self = s :: rest ->
             exists t', t = lookup_of self s :: t').
Proof.
  intros Htabs Hiframe Hframe Hanchor Hclick Hmiss. split; [|split].
  - intros v. rewrite is_recaptcha_solved_run.
    destruct (find_element D _ v) as [[e|[]] v1]; eexists _, v1;
      (split; [reflexivity|]);
      (split; [discriminate || eauto | intros [e' He']; inversion He'; reflexivity]).
  - intros budget v. rewrite wait_for_solution_run.
    destruct (wait_until D _ _ v) as [[e|[]] v1]; eexists _, v1;
      (split; [reflexivity|]);
      (split; [discriminate || eauto | intros [e' He']; inversion He'; reflexivity]).
  - destruct (solve_recaptcha_challenge_starts_at_top iframe max_wait_time w5)
      as (r & t & w' & Hchallenge & Hnext).
    exists (surfaced r), t, (snd (switch_to_default_content D w')).
    split; [|exact Hnext].
    rewrite solve_recaptcha_unfold.
    rewrite (solve_recaptcha_body_clicked _ _ _ _ _ _ _ _ _ _
               Htabs Hiframe Hframe Hanchor Hclick).
    erewrite bind_return
      by (rewrite is_recaptcha_solved_run, Hmiss; reflexivity).
    cbv beta iota. rewrite Hchallenge. unfold after. cbn [fst snd].
    rewrite <- !app_assoc. reflexivity.
Qed.

(** ** Ordered fallback over the candidates *)

Lemma find_challenge_iframe_from_step (s : selector) (rest : list selector) w :
  find_challenge_iframe_from D self (s :: rest) w =
  match wait_until D (timeout self) (presence_of_element_located s) w with
  | (Return iframe, w1) => (Return (Some iframe), [lookup_of self s], w1)
  | (Raise TimeoutException, w1) =>
      after D [lookup_of self s] (find_challenge_iframe_from D self rest w1)
  | (Raise e, w1) => (Raise e, [lookup_of self s], w1)
  end.
Proof.
  cbn [find_challenge_iframe_from].
  unfold try_except, bind, until, command, ret, lookup_of, after.
  destruct (wait_until D _ _ w) as [[iframe|[]] w1]; reflexivity.
Qed.

Lemma activate_buster_extension_from_step
    (s : selector) (rest : list selector) w :
  activate_buster_extension_from D self (s :: rest) w =
  match wait_until D (timeout self) (element_to_be_clickable s) w with
  | (Return button, w1) =>
      match click D button (elapse D 5000 w1) with
      | (Return _, w2) =>
          (Return true, [button_wait_of self s; Sleep 5000; Click button], w2)
      | (Raise TimeoutException, w2) =>
          after D [button_wait_of self s; Sleep 5000; Click button]
            (activate_buster_extension_from D self rest w2)
      | (Raise e, w2) =>
          (Raise e, [button_wait_of self s; Sleep 5000; Click button], w2)
      end
  | (Raise TimeoutException, w1) =>
      after D [button_wait_of self s]
        (activate_buster_extension_from D self rest w1)
  | (Raise e, w1) => (Raise e, [button_wait_of self s], w1)
  end.
Proof.
  cbn [activate_buster_extension_from].
  unfold try_except, bind, until, time_sleep, element_click, command, ret,
    button_wait_of, after.
  destruct (wait_until D _ _ w) as [[button|[]] w1]; try reflexivity.
  destruct (click D button (elapse D 5000 w1)) as [[[]|[]] w2]; reflexivity.
Qed.

Lemma find_challenge_iframe_from_first_match
    (misses : list selector) (s : selector) (rest : list selector)
    (w w1 w2 : world D) (iframe : WebElement) :
  lookups_time_out D self misses w w1 ->
  wait_until D (timeout self) (presence_of_element_located s) w1
    = (Return iframe, w2) ->
  find_challenge_iframe_from D self (misses ++ s :: rest) w
  = (Return (Some iframe), map (lookup_of self) (misses ++ [s]), w2).
Proof.
  induction 1 as [w | m misses w wa wb Hm Hrest IH]; intros Hfound.
  - cbn [app map]. rewrite find_challenge_iframe_from_step, Hfound.
    reflexivity.
  - cbn [app map]. rewrite find_challenge_iframe_from_step, Hm.
    rewrite (IH Hfound). reflexivity.
Qed.

Lemma find_challenge_iframe_from_exhausted
    (selectors : list selector) (w w1 : world D) :
  lookups_time_out D self selectors w w1 ->
  find_challenge_iframe_from D self selectors w
  = (Return None, map (lookup_of self) selectors, w1).
Proof.
  induction 1 as [w | m misses w wa wb Hm Hrest IH].
  - reflexivity.
  - rewrite find_challenge_iframe_from_step, Hm, IH. reflexivity.
Qed.

Lemma passed_over_step (s : selector) (rest : list selector)
    (w w1 : world D) (t : list call) :
  passed_over D self s w t w1 ->
  activate_buster_extension_from D self (s :: rest) w
  = after D t (activate_buster_extension_from D self rest w1).
Proof.
  intros [wa wb Hwait | wa e wb wc Hwait Hclick];
    rewrite activate_buster_extension_from_step, Hwait; [reflexivity|].
  rewrite Hclick. reflexivity.
Qed.

Lemma activate_buster_extension_from_first_click
    (misses : list selector) (s : selector) (rest : list selector)
    (w w1 w2 w3 : world D) (t : list call) (button : WebElement) :
  all_passed_over D self misses w t w1 ->
  wait_until D (timeout self) (element_to_be_clickable s) w1
    = (Return button, w2) ->
  click D button (elapse D 5000 w2) = (Return tt, w3) ->
  activate_buster_extension_from D self (misses ++ s :: rest) w
  = (Return true,
     t ++ [button_wait_of self s; Sleep 5000; Click button], w3).
Proof.
  induction 1 as [w | m misses w t wa t' wb Hm Hrest IH];
    intros Hwait Hclick; cbn [app].
  - rewrite activate_buster_extension_from_step, Hwait, Hclick. reflexivity.
  - rewrite (passed_over_step _ _ _ _ _ Hm), (IH Hwait Hclick).
    cbn [after]. now rewrite app_assoc.
Qed.

Lemma activate_buster_extension_from_exhausted
    (selectors : list selector) (w w1 : world D) (t : list call) :
  all_passed_over D self selectors w t w1 ->
  activate_buster_extension_from D self selectors w = (Return false, t, w1).
Proof.
  induction 1 as [w | m misses w t wa t' wb Hm Hrest IH].
  - reflexivity.
  - rewrite (passed_over_step _ _ _ _ _ Hm), IH. reflexivity.
Qed.

Lemma activate_buster_extension_from_well_delayed (selectors : list selector) :
  forall w,
    well_delayed
      (snd (fst (activate_buster_extension_from D self selectors w))).
Proof.
  induction selectors as [|s rest IH]; intros w.
  - cbn. constructor.
  - rewrite activate_buster_extension_from_step. unfold button_wait_of.
    destruct (wait_until D _ _ w) as [[button|[]] w1]; cbn [fst snd].
    + destruct (click D button (elapse D 5000 w1)) as [[[]|[]] w2];
        cbn [fst snd]; try (apply delayed_click, delayed_nil).
      specialize (IH w2).
      destruct (activate_buster_extension_from D self rest w2) as [[r t] w3].
      cbn [after fst snd app] in *. now apply delayed_click.
    + specialize (IH w1).
      destruct (activate_buster_extension_from D self rest w1) as [[r t] w3].
      cbn [after fst snd app] in *. now apply delayed_wait.
    + apply delayed_wait, delayed_nil.
    + apply delayed_wait, delayed_nil.
    + apply delayed_wait, delayed_nil.
Qed.

Lemma activate_buster_extension_from_false
    (selectors : list selector) :
  forall (w w1 : world D) (t : list call),
    activate_buster_extension_from D self selectors w = (Return false, t, w1) ->
    all_passed_over D self selectors w t w1.
Proof.
  induction selectors as [|s rest IH]; intros w w1 t.
  - cbn. unfold ret. intros H; inversion H. constructor.
  - rewrite activate_buster_extension_from_step.
    destruct (wait_until D _ _ w) as [[button|e] wa] eqn:Hwait.
    + destruct (click D button (elapse D 5000 wa)) as [[[]|e] wb] eqn:Hclick;
        [discriminate|].
      destruct e; try discriminate.
      destruct (activate_buster_extension_from D self rest wb)
        as [[r t'] wc] eqn:Hrest.
      cbn [after]. intros H; inversion H; subst.
      apply (passed_cons D self s rest w
               [button_wait_of self s; Sleep 5000; Click button] wb t' w1);
        [eapply click_timed_out; eassumption|].
      now apply IH.
    + destruct e; try discriminate.
      destruct (activate_buster_extension_from D self rest wa)
        as [[r t'] wc] eqn:Hrest.
      cbn [after]. intros H; inversion H; subst.
      apply (passed_cons D self s rest w [button_wait_of self s] wa t' w1);
        [eapply never_clickable; eassumption|].
      now apply IH.
Qed.

(** C5, as amended: both lookups try their candidates in the declared
    order, each under its own wait of [timeout] seconds.
    [find_challenge_iframe] returns the iframe of the first candidate whose
    wait finds one.  [activate_buster_extension] returns [true] on the first
    candidate whose button becomes clickable and whose click goes through; a
    candidate whose click ends in [TimeoutException] is passed over like one
    whose wait timed out.  When every candidate is passed over the result is
    [None], respectively [false], not an exception. *)
Theorem fallback_tries_candidates_in_order :
  (forall misses s rest w w1 w2 iframe,
      CHALLENGE_IFRAME_SELECTORS self = misses ++ s :: rest ->
      lookups_time_out D self misses w w1 ->
      wait_until D (timeout self) (presence_of_element_located s) w1
        = (Return iframe, w2) ->
      find_challenge_iframe D self w
      = (Return (Some iframe), map (lookup_of self) (misses ++ [s]), w2))
  /\ (forall w w1,
        lookups_time_out D self (CHALLENGE_IFRAME_SELECTORS self) w w1 ->
        find_challenge_iframe D self w
        = (Return None,
           map (lookup_of self) (CHALLENGE_IFRAME_SELECTORS self), w1))
  /\ (forall misses s rest w t w1 w2 w3 button,
        BUSTER_BUTTON_SELECTORS self = misses ++ s :: rest ->
        all_passed_over D self misses w t w1 ->
        wait_until D (timeout self) (element_to_be_clickable s) w1
          = (Return button, w2) ->
        click D button (elapse D 5000 w2) = (Return tt, w3) ->
        activate_buster_extension D self w
        = (Return true,
           t ++ [button_wait_of self s; Sleep 5000; Click button], w3))
  /\ (forall w t w1,
        all_passed_over D self (BUSTER_BUTTON_SELECTORS self) w t w1 ->
        activate_buster_extension D self w = (Return false, t, w1)).
Proof.
  unfold find_challenge_iframe, activate_buster_extension.
  split; [|split; [|split]].
  - intros misses s rest w w1 w2 iframe -> Hmiss Hfound.
    now apply find_challenge_iframe_from_first_match with (w1 := w1).
  - intros w w1 Hmiss. now apply find_challenge_iframe_from_exhausted.
  - intros misses s rest w t w1 w2 w3 button -> Hmiss Hwait Hclick.
    now apply activate_buster_extension_from_first_click
      with (w1 := w1) (w2 := w2).
  - intros w t w1 Hmiss. now apply activate_buster_extension_from_exhausted.
Qed.

(** C8, as amended: in [activate_buster_extension] a click is only ever
    dispatched right after the five second pause that follows the wait for
    the button; it returns [true] on the first candidate whose button
    becomes clickable and whose click, dispatched after the pause, goes
    through; and it returns [false] exactly when every candidate was passed
    over, the button never clickable within the budget or its click ending
    in [TimeoutException]. *)
Theorem activation_waits_before_click :
  (forall w,
      well_delayed (snd (fst (activate_buster_extension D self w))))
  /\ (forall misses s rest w t w1 w2 w3 button,
        BUSTER_BUTTON_SELECTORS self = misses ++ s :: rest ->
        all_passed_over D self misses w t w1 ->
        wait_until D (timeout self) (element_to_be_clickable s) w1
          = (Return button, w2) ->
        click D button (elapse D 5000 w2) = (Return tt, w3) ->
        activate_buster_extension D self w
        = (Return true,
           t ++ [WaitUntil (timeout self) (element_to_be_clickable s);
                 Sleep 5000; Click button], w3))
  /\ (forall w t w1,
        activate_buster_extension D self w = (Return false, t, w1) <->
        all_passed_over D self (BUSTER_BUTTON_SELECTORS self) w t w1).
Proof.
  unfold activate_buster_extension. split; [|split].
  - apply activate_buster_extension_from_well_delayed.
  - intros misses s rest w t w1 w2 w3 button -> Hmiss Hwait Hclick.
    now apply activate_buster_extension_from_first_click
      with (w1 := w1) (w2 := w2).
  - intros w t w1. split.
    + apply activate_buster_extension_from_false.
    + apply activate_buster_extension_from_exhausted.
Qed.

End Properties.

(** * Further properties of the solver *)

Section Composition.

Variable D : Driver.

(** ** Properties of every call of a record *)

Lemma always_ret (P : call -> Prop) {A} (a : A) : always D P (ret a).
Proof. intros w. constructor. Qed.

Lemma always_raise (P : call -> Prop) {A} (e : exn) :
  always D P (@raise D A e).
Proof. intros w. constructor. Qed.

Lemma always_command (P : call -> Prop) {A} (c : call)
    (op : world D -> outcome A * world D) :
  P c -> always D P (command D c op).
Proof.
  intros Hc w. unfold command, record_of. destruct (op w) as [r w1].
  cbn. now repeat constructor.
Qed.

Lemma always_sleep (P : call -> Prop) (ms : Z) :
  P (Sleep ms) -> always D P (time_sleep D ms).
Proof. intros Hc w. cbn. now repeat constructor. Qed.

Lemma always_bind (P : call -> Prop) {A B} (m : M D A) (k : A -> M D B) :
  always D P m -> (forall a, always D P (k a)) -> always D P (bind m k).
Proof.
  intros Hm Hk w. specialize (Hm w). unfold bind, record_of in *.
  destruct (m w) as [[[a|e] t] w1]; cbn in *; [|assumption].
  specialize (Hk a w1). unfold record_of in Hk.
  destruct (k a w1) as [[r t'] w2]. cbn in *.
  apply Forall_app. now split.
Qed.

Lemma always_try_except (P : call -> Prop) {A} (body : M D A)
    (catches : exn -> bool) (handler : exn -> M D A) :
  always D P body -> (forall e, always D P (handler e)) ->
  always D P (try_except body catches handler).
Proof.
  intros Hb Hh w. specialize (Hb w). unfold try_except, record_of in *.
  destruct (body w) as [[[a|e] t] w1]; cbn in *; [assumption|].
  destruct (catches e); [|assumption].
  specialize (Hh e w1). unfold record_of in Hh.
  destruct (handler e w1) as [[r t'] w2]. cbn in *.
  apply Forall_app. now split.
Qed.

Lemma always_try_finally (P : call -> Prop) {A} (body : M D A)
    (cleanup : M D unit) :
  always D P body -> always D P cleanup ->
  always D P (try_finally body cleanup).
Proof.
  intros Hb Hc w. specialize (Hb w). unfold try_finally, record_of in *.
  destruct (body w) as [[r t] w1]. cbn in *.
  specialize (Hc w1). unfold record_of in Hc.
  destruct (cleanup w1) as [[[u|e] t'] w2]; cbn in *;
    apply Forall_app; now split.
Qed.

(** ** What a record costs *)

Lemma spent_app (p : prices) (t t' : list call) :
  spent p (t ++ t') = spent p t + spent p t'.
Proof.
  induction t as [|c t IH]; cbn; [reflexivity|].
  fold (spent p (t ++ t')). fold (spent p t). lia.
Qed.

Lemma spent_nonneg (p : prices) (t : list call) :
  fair p -> 0 <= spent p t.
Proof.
  intros Hp. induction t as [|c t IH]; cbn; [lia|].
  fold (spent p t). specialize (Hp c). lia.
Qed.

Lemma within_weaken (p : prices) {A} (m : M D A) (a b : Z) :
  within D p m a -> a <= b -> within D p m b.
Proof. intros Hm Hab w. specialize (Hm w). lia. Qed.

Lemma within_ret (p : prices) {A} (a : A) : within D p (ret a) 0.
Proof. intros w. cbn. lia. Qed.

Lemma within_raise (p : prices) {A} (e : exn) : within D p (@raise D A e) 0.
Proof. intros w. cbn. lia. Qed.

Lemma within_command (p : prices) {A} (c : call)
    (op : world D -> outcome A * world D) :
  within D p (command D c op) (price p c).
Proof.
  intros w. unfold command, record_of. destruct (op w) as [r w1]. cbn. lia.
Qed.

Lemma within_sleep (p : prices) (ms : Z) :
  within D p (time_sleep D ms) (p_sleep p ms).
Proof. intros w. cbn. lia. Qed.

Lemma within_bind (p : prices) {A B} (m : M D A) (k : A -> M D B) (a b : Z) :
  within D p m a -> (forall x, within D p (k x) b) -> 0 <= b ->
  within D p (bind m k) (a + b).
Proof.
  intros Hm Hk Hb w. specialize (Hm w). unfold bind, record_of in *.
  destruct (m w) as [[[x|e] t] w1]; cbn [fst snd] in *; [|lia].
  specialize (Hk x w1). unfold record_of in Hk.
  destruct (k x w1) as [[r t'] w2]. cbn [fst snd] in *.
  rewrite spent_app. lia.
Qed.

Lemma within_try_except (p : prices) {A} (body : M D A)
    (catches : exn -> bool) (handler : exn -> M D A) (a b : Z) :
  within D p body a -> (forall e, within D p (handler e) b) -> 0 <= b ->
  within D p (try_except body catches handler) (a + b).
Proof.
  intros Hm Hh Hb w. specialize (Hm w). unfold try_except, record_of in *.
  destruct (body w) as [[[x|e] t] w1]; cbn [fst snd] in *; [lia|].
  destruct (catches e); cbn [fst snd]; [|lia].
  specialize (Hh e w1). unfold record_of in Hh.
  destruct (handler e w1) as [[r t'] w2]. cbn [fst snd] in *.
  rewrite spent_app. lia.
Qed.

Lemma within_try_finally (p : prices) {A} (body : M D A)
    (cleanup : M D unit) (a b : Z) :
  within D p body a -> within D p cleanup b ->
  within D p (try_finally body cleanup) (a + b).
Proof.
  intros Hm Hc w. specialize (Hm w). unfold try_finally, record_of in *.
  destruct (body w) as [[r t] w1]. cbn [fst snd] in *.
  specialize (Hc w1). unfold record_of in Hc.
  destruct (cleanup w1) as [[[u|e] t'] w2]; cbn [fst snd] in *;
    rewrite spent_app; lia.
Qed.

End Composition.

Ltac always_step :=
  first
    [ apply always_ret
    | apply always_raise
    | apply always_bind; [|intros ?]
    | apply always_try_except; [|intros ?]
    | apply always_try_finally
    | apply always_command
    | apply always_sleep
    | match goal with
      | |- always _ _ (match ?x with _ => _ end) => destruct x
      end ].

Section Stages.

Variable D : Driver.
Variable self : RecaptchaSolver.

(** ** Records of the stage methods *)

Lemma always_find_challenge_iframe_from (P : call -> Prop)
    (selectors : list selector) :
  (forall s, In s selectors -> P (lookup_of self s)) ->
  always D P (find_challenge_iframe_from D self selectors).
Proof.
  induction selectors as [|s rest IH]; intros HP;
    cbn [find_challenge_iframe_from].
  - apply always_ret.
  - apply always_try_except.
    + unfold until. repeat always_step. apply HP. now left.
    + intros _. apply IH. intros s' Hs'. apply HP. now right.
Qed.

Lemma always_activate_buster_extension_from (P : call -> Prop)
    (selectors : list selector) :
  (forall s, In s selectors -> P (button_wait_of self s)) ->
  P (Sleep 5000) ->
  (forall e, P (Click e)) ->
  always D P (activate_buster_extension_from D self selectors).
Proof.
  intros HP Hsleep Hclick.
  induction selectors as [|s rest IH]; cbn [activate_buster_extension_from].
  - apply always_ret.
  - apply always_try_except.
    + unfold until, element_click. repeat always_step;
        [apply HP; now left|assumption|apply Hclick].
    + intros _. apply IH. intros s' Hs'. apply HP. now right.
Qed.

(** X1: the stage methods never move the session's focus: no record of
    [find_recaptcha_checkbox_iframe], [click_recaptcha_checkbox],
    [is_recaptcha_solved], [find_challenge_iframe],
    [activate_buster_extension] or [wait_for_solution] holds a switch to a
    window, to a frame or to the top level.  Finding an iframe does not
    enter it. *)
Theorem stage_methods_never_switch_context :
  always D (fun c => is_context_switch c = false)
    (find_recaptcha_checkbox_iframe D self)
  /\ always D (fun c => is_context_switch c = false)
       (click_recaptcha_checkbox D self)
  /\ always D (fun c => is_context_switch c = false)
       (is_recaptcha_solved D self)
  /\ always D (fun c => is_context_switch c = false)
       (find_challenge_iframe D self)
  /\ always D (fun c => is_context_switch c = false)
       (activate_buster_extension D self)
  /\ (forall max_wait_time,
        always D (fun c => is_context_switch c = false)
          (wait_for_solution D self max_wait_time)).
Proof.
  repeat split.
  - unfold find_recaptcha_checkbox_iframe, until.
    repeat always_step; reflexivity.
  - unfold click_recaptcha_checkbox, until, element_click.
    repeat always_step; reflexivity.
  - unfold is_recaptcha_solved, driver_find_element.
    repeat always_step; reflexivity.
  - apply always_find_challenge_iframe_from. reflexivity.
  - apply always_activate_buster_extension_from; reflexivity.
  - intros max_wait_time. unfold wait_for_solution, until.
    repeat always_step; reflexivity.
Qed.


(** ** What an attempt can cost *)

Lemma fair_prices (p : prices) :
  fair p ->
  0 <= p_handles p /\ 0 <= p_window p /\ 0 <= p_frame p /\ 0 <= p_default p
  /\ (forall budget, 0 <= p_wait p budget) /\ 0 <= p_find p
  /\ 0 <= p_click p /\ (forall ms, 0 <= p_sleep p ms).
Proof.
  intros Hp. repeat split.
  - apply (Hp GetWindowHandles).
  - apply (Hp (SwitchToWindow EmptyString)).
  - apply (Hp (SwitchToFrame {| element_id := EmptyString |})).
  - apply (Hp SwitchToDefaultContent).
  - intros budget.
    apply (Hp (WaitUntil budget (presence_of_element_located EmptyString))).
  - apply (Hp (FindElement EmptyString)).
  - apply (Hp (Click {| element_id := EmptyString |})).
  - intros ms. apply (Hp (Sleep ms)).
Qed.

Ltac within_cmd :=
  eapply within_weaken;
    [apply within_command | cbn [price]; apply Z.le_refl].

Ltac fair_facts Hp :=
  destruct (fair_prices _ Hp)
    as (Hhandles & Hwindow & Hframe & Hdefault & Hwait & Hfind & Hclick
        & Hsleep);
  pose proof (Hwait (timeout self)) as Hwait_timeout;
  pose proof (Hsleep 500) as Hsleep_tabs;
  pose proof (Hsleep 2000) as Hsleep_settle;
  pose proof (Hsleep 5000) as Hsleep_buster.

Lemma within_handle_extension_tabs (p : prices) :
  fair p ->
  within D p (handle_extension_tabs D)
    (2 * p_handles p + p_window p + p_sleep p 500).
Proof.
  intros Hp. fair_facts Hp.
  eapply within_weaken.
  - unfold handle_extension_tabs. eapply within_bind.
    + within_cmd.
    + intros handles. destruct (Z.of_nat (List.length handles) >? 1).
      * eapply within_bind; [within_cmd| |].
        -- intros [|h rest].
           2: { eapply within_bind;
                  [within_cmd|intros ?; apply within_sleep|].
                cbn [price]; lia. }
           eapply within_weaken; [apply within_raise|]. cbn [price]; lia.
        -- cbn [price]; lia.
      * eapply within_weaken; [apply within_ret|]. cbn [price]; lia.
    + cbn [price]; lia.
  - cbn [price]; lia.
Qed.

Lemma within_find_recaptcha_checkbox_iframe (p : prices) :
  within D p (find_recaptcha_checkbox_iframe D self)
    (p_wait p (timeout self)).
Proof.
  eapply within_weaken.
  - unfold find_recaptcha_checkbox_iframe, until.
    eapply within_try_except; [|intros ?; apply within_ret|lia].
    eapply within_bind; [within_cmd|intros ?; apply within_ret|lia].
  - cbn [price]; lia.
Qed.

Lemma within_click_recaptcha_checkbox (p : prices) :
  fair p ->
  within D p (click_recaptcha_checkbox D self)
    (p_wait p (timeout self) + p_click p).
Proof.
  intros Hp. fair_facts Hp.
  eapply within_weaken.
  - unfold click_recaptcha_checkbox, until, element_click.
    eapply within_try_except; [|intros ?; apply within_ret|lia].
    eapply within_bind; [within_cmd| |].
    + intros checkbox.
      eapply within_bind;
        [within_cmd|intros ?; apply within_ret|lia].
    + cbn [price]; lia.
  - cbn [price]; lia.
Qed.

Lemma within_is_recaptcha_solved (p : prices) :
  within D p (is_recaptcha_solved D self) (p_find p).
Proof.
  eapply within_weaken.
  - unfold is_recaptcha_solved, driver_find_element.
    eapply within_try_except; [|intros ?; apply within_ret|lia].
    eapply within_bind; [within_cmd|intros ?; apply within_ret|lia].
  - cbn [price]; lia.
Qed.

Lemma within_wait_for_solution (p : prices) (max_wait_time : Z) :
  within D p (wait_for_solution D self max_wait_time)
    (p_wait p max_wait_time).
Proof.
  eapply within_weaken.
  - unfold wait_for_solution, until.
    eapply within_try_except; [|intros ?; apply within_ret|lia].
    eapply within_bind; [within_cmd|intros ?; apply within_ret|lia].
  - cbn [price]; lia.
Qed.

Lemma within_find_challenge_iframe_from (p : prices)
    (selectors : list selector) :
  fair p ->
  within D p (find_challenge_iframe_from D self selectors)
    (Z.of_nat (List.length selectors) * p_wait p (timeout self)).
Proof.
  intros Hp. fair_facts Hp.
  induction selectors as [|s rest IH]; cbn [find_challenge_iframe_from].
  - eapply within_weaken; [apply within_ret|]. cbn [price]; lia.
  - assert (0 <= Z.of_nat (List.length rest) * p_wait p (timeout self))
      by (apply Z.mul_nonneg_nonneg; lia).
    eapply within_weaken.
    + eapply within_try_except; [|intros ?; exact IH|assumption].
      unfold until.
      eapply within_bind;
        [within_cmd|intros ?; apply within_ret|lia].
    + cbn [price List.length]. lia.
Qed.

Lemma within_activate_buster_extension_from (p : prices)
    (selectors : list selector) :
  fair p ->
  within D p (activate_buster_extension_from D self selectors)
    (Z.of_nat (List.length selectors)
     * (p_wait p (timeout self) + p_sleep p 5000 + p_click p)).
Proof.
  intros Hp. fair_facts Hp.
  induction selectors as [|s rest IH]; cbn [activate_buster_extension_from].
  - eapply within_weaken; [apply within_ret|]. cbn [price]; lia.
  - assert (0 <= Z.of_nat (List.length rest)
                 * (p_wait p (timeout self) + p_sleep p 5000 + p_click p))
      by (apply Z.mul_nonneg_nonneg; lia).
    eapply within_weaken.
    + eapply within_try_except; [|intros ?; exact IH|assumption].
      unfold until, element_click.
      eapply within_bind; [within_cmd| |].
      * intros button.
        eapply within_bind; [apply within_sleep| |].
        -- intros ?.
           eapply within_bind;
             [within_cmd|intros ?; apply within_ret|lia].
        -- cbn [price]; lia.
      * cbn [price]; lia.
    + cbn [price List.length]. lia.
Qed.

Lemma within_solve_recaptcha_challenge (p : prices)
    (checkbox_iframe : WebElement) (max_wait_time : Z) :
  fair p ->
  within D p (solve_recaptcha_challenge D self checkbox_iframe max_wait_time)
    (p_default p
     + Z.of_nat (List.length (CHALLENGE_IFRAME_SELECTORS self))
       * p_wait p (timeout self)
     + p_frame p
     + Z.of_nat (List.length (BUSTER_BUTTON_SELECTORS self))
       * (p_wait p (timeout self) + p_sleep p 5000 + p_click p)
     + p_default p + p_frame p + p_wait p max_wait_time).
Proof.
  intros Hp. fair_facts Hp.
  pose proof (Hwait max_wait_time) as Hwait_max.
  assert (Hlookups :
            0 <= Z.of_nat (List.length (CHALLENGE_IFRAME_SELECTORS self))
                 * p_wait p (timeout self))
    by (apply Z.mul_nonneg_nonneg; lia).
  assert (Hbuttons :
            0 <= Z.of_nat (List.length (BUSTER_BUTTON_SELECTORS self))
                 * (p_wait p (timeout self) + p_sleep p 5000 + p_click p))
    by (apply Z.mul_nonneg_nonneg; lia).
  eapply within_weaken.
  - unfold solve_recaptcha_challenge, driver_switch_to_default_content,
      driver_switch_to_frame.
    eapply within_bind; [within_cmd| |].
    + intros ?. eapply within_bind;
        [apply (within_find_challenge_iframe_from p _ Hp)| |].
      * intros [challenge_iframe|].
        2: { eapply within_weaken; [apply within_ret|].
             instantiate (1 := p_frame p
               + (Z.of_nat (List.length (BUSTER_BUTTON_SELECTORS self))
                  * (p_wait p (timeout self) + p_sleep p 5000 + p_click p)
                  + (p_default p + (p_frame p + p_wait p max_wait_time)))).
             lia. }
        eapply within_weaken.
        -- eapply within_bind; [within_cmd| |].
           ++ intros ?. eapply within_bind;
                [apply (within_activate_buster_extension_from p _ Hp)| |].
              ** intros activated. destruct activated; cbn [negb].
                 2: { eapply within_weaken; [apply within_ret|].
                      instantiate (1 := p_default p
                        + (p_frame p + p_wait p max_wait_time)).
                      lia. }
                 eapply within_weaken.
                 --- eapply within_bind; [within_cmd| |].
                     +++ intros ?. eapply within_bind;
                           [within_cmd
                           |intros ?; apply within_wait_for_solution|lia].
                     +++ cbn [price]; lia.
                 --- cbn [price]; lia.
              ** lia.
           ++ lia.
        -- cbn [price]; lia.
      * lia.
    + lia.
  - cbn [price]; lia.
Qed.

Lemma attempt_ceiling_nonneg (p : prices) (max_wait_time : Z) :
  fair p -> 0 <= attempt_ceiling p self max_wait_time.
Proof.
  intros Hp. fair_facts Hp.
  pose proof (Hwait max_wait_time) as Hwait_max.
  assert (0 <= Z.of_nat (List.length (CHALLENGE_IFRAME_SELECTORS self))
               * p_wait p (timeout self))
    by (apply Z.mul_nonneg_nonneg; lia).
  assert (0 <= Z.of_nat (List.length (BUSTER_BUTTON_SELECTORS self))
               * (p_wait p (timeout self) + p_sleep p 5000 + p_click p))
    by (apply Z.mul_nonneg_nonneg; lia).
  unfold attempt_ceiling. lia.
Qed.

Lemma within_solve_recaptcha (p : prices) (max_wait_time : Z) :
  fair p ->
  within D p (solve_recaptcha D self max_wait_time)
    (attempt_ceiling p self max_wait_time).
Proof.
  intros Hp.
  pose proof (attempt_ceiling_nonneg p max_wait_time Hp) as Hceiling.
  fair_facts Hp.
  pose proof (Hwait max_wait_time) as Hwait_max.
  assert (Hlookups :
            0 <= Z.of_nat (List.length (CHALLENGE_IFRAME_SELECTORS self))
                 * p_wait p (timeout self))
    by (apply Z.mul_nonneg_nonneg; lia).
  assert (Hbuttons :
            0 <= Z.of_nat (List.length (BUSTER_BUTTON_SELECTORS self))
                 * (p_wait p (timeout self) + p_sleep p 5000 + p_click p))
    by (apply Z.mul_nonneg_nonneg; lia).
  eapply within_weaken.
  - unfold solve_recaptcha, solve_recaptcha_cleanup,
      driver_switch_to_default_content.
    eapply within_try_finally.
    2: { eapply within_try_except;
           [within_cmd|intros ?; apply within_ret|lia]. }
    eapply within_try_except; [|intros ?; apply within_ret|lia].
    unfold solve_recaptcha_body, driver_switch_to_frame.
    eapply within_bind; [apply (within_handle_extension_tabs p Hp)| |].
    + intros ?. eapply within_bind;
        [apply within_find_recaptcha_checkbox_iframe| |].
      * intros [checkbox_iframe|].
        2: { eapply within_weaken; [apply within_ret|].
             instantiate (1 := p_frame p
               + (p_wait p (timeout self) + p_click p
                  + (p_sleep p 2000
                     + (p_find p
                        + (p_default p
                           + Z.of_nat
                               (List.length (CHALLENGE_IFRAME_SELECTORS self))
                             * p_wait p (timeout self)
                           + p_frame p
                           + Z.of_nat
                               (List.length (BUSTER_BUTTON_SELECTORS self))
                             * (p_wait p (timeout self) + p_sleep p 5000
                                + p_click p)
                           + p_default p + p_frame p
                           + p_wait p max_wait_time))))).
             lia. }
        eapply within_weaken.
        -- eapply within_bind; [within_cmd| |].
           ++ intros ?. eapply within_bind;
                [apply (within_click_recaptcha_checkbox p Hp)| |].
              ** intros clicked. destruct clicked; cbn [negb].
                 2: { eapply within_weaken; [apply within_ret|].
                      instantiate (1 := p_sleep p 2000
                        + (p_find p
                           + (p_default p
                              + Z.of_nat
                                  (List.length
                                     (CHALLENGE_IFRAME_SELECTORS self))
                                * p_wait p (timeout self)
                              + p_frame p
                              + Z.of_nat
                                  (List.length (BUSTER_BUTTON_SELECTORS self))
                                * (p_wait p (timeout self) + p_sleep p 5000
                                   + p_click p)
                              + p_default p + p_frame p
                              + p_wait p max_wait_time))).
                      lia. }
                 eapply within_weaken.
                 --- eapply within_bind; [apply within_sleep| |].
                     +++ intros ?. eapply within_bind;
                           [apply within_is_recaptcha_solved| |].
                         *** intros solved. destruct solved.
                             2: { apply (within_solve_recaptcha_challenge
                                           p checkbox_iframe max_wait_time Hp). }
                             eapply within_weaken; [apply within_ret|]. lia.
                         *** lia.
                     +++ lia.
                 --- lia.
              ** lia.
           ++ lia.
        -- lia.
      * lia.
    + lia.
  - unfold attempt_ceiling. lia.
Qed.

Lemma within_solve_all_recaptchas_loop (p : prices) (max_attempts : Z)
    (n : nat) :
  fair p ->
  forall attempts,
    attempts < max_attempts ->
    max_attempts - attempts <= Z.of_nat n ->
    within D p (solve_all_recaptchas_loop D self max_attempts attempts)
      ((max_attempts - attempts) * attempt_ceiling p self 30
       + (max_attempts - attempts - 1) * p_sleep p 2000).
Proof.
  intros Hp.
  pose proof (attempt_ceiling_nonneg p 30 Hp) as Hceiling.
  fair_facts Hp.
  induction n as [|n IH]; intros attempts Hlt Hn; [lia|].
  rewrite solve_all_recaptchas_loop_step.
  replace (attempts <? max_attempts) with true
    by (symmetry; apply Z.ltb_lt; lia).
  destruct (attempts + 1 <? max_attempts) eqn:Hnext.
  - apply Z.ltb_lt in Hnext.
    eapply within_weaken.
    + eapply within_bind; [apply (within_solve_recaptcha p 30 Hp)| |].
      * intros solved. destruct solved.
        2: { eapply within_bind;
               [apply within_sleep
               |intros ?; apply (IH (attempts + 1)); lia|].
             nia. }
        eapply within_weaken; [apply within_ret|]. nia.
      * nia.
    + nia.
  - apply Z.ltb_ge in Hnext.
    eapply within_weaken.
    + eapply within_bind; [apply (within_solve_recaptcha p 30 Hp)| |].
      * intros solved. destruct solved.
        2: { eapply within_bind; [apply within_ret| |].
             - intros ?. intros w.
               rewrite solve_all_recaptchas_loop_exit by lia.
               cbn. apply Z.le_refl.
             - lia. }
        eapply within_weaken; [apply within_ret|]. lia.
      * lia.
    + nia.
Qed.

(** X3: the time one attempt can spend waiting is bounded: the budgets of
    all waits and the durations of all sleeps of a run of [solve_recaptcha]
    add up to at most 2.5 seconds, plus [max_wait_time], plus one [timeout]
    for each of the two checkbox lookups and for every challenge and Buster
    candidate, plus five seconds for every Buster candidate. *)
Theorem attempt_waits_at_most (max_wait_time : Z) (w : world D) :
  0 <= timeout self ->
  0 <= max_wait_time ->
  spent wall_clock (record_of (solve_recaptcha D self max_wait_time w))
  <= 2500 + 1000 * max_wait_time
     + (2 + Z.of_nat (List.length (CHALLENGE_IFRAME_SELECTORS self))
          + Z.of_nat (List.length (BUSTER_BUTTON_SELECTORS self)))
       * (1000 * timeout self)
     + Z.of_nat (List.length (BUSTER_BUTTON_SELECTORS self)) * 5000.
Proof.
  intros Htimeout Hmax.
  assert (Hfair : fair wall_clock) by (intros []; cbn; lia).
  pose proof (within_solve_recaptcha wall_clock max_wait_time Hfair w) as H.
  unfold attempt_ceiling in H. cbn [wall_clock p_handles p_window p_frame
    p_default p_wait p_find p_click p_sleep] in H.
  rewrite !Z.max_r in H by lia. lia.
Qed.

(** X4: whatever the driver does, one attempt dispatches at most one
    click more than there are Buster candidates: one on the checkbox and
    one for each candidate tried. *)
Theorem attempt_clicks_at_most (max_wait_time : Z) (w : world D) :
  spent clicks (record_of (solve_recaptcha D self max_wait_time w))
  <= 1 + Z.of_nat (List.length (BUSTER_BUTTON_SELECTORS self)).
Proof.
  assert (Hfair : fair clicks) by (intros []; cbn; lia).
  pose proof (within_solve_recaptcha clicks max_wait_time Hfair w) as H.
  unfold attempt_ceiling in H. cbn [clicks p_handles p_window p_frame
    p_default p_wait p_find p_click p_sleep] in H. lia.
Qed.

(** X5: for [max_attempts >= 1], all the waiting of
    [solve_all_recaptchas] is bounded by [max_attempts] times the bound of
    one attempt with the default completion budget of 30 seconds, plus two
    seconds between consecutive attempts. *)
Theorem retries_wait_at_most (max_attempts : Z) (w : world D) :
  1 <= max_attempts ->
  0 <= timeout self ->
  spent wall_clock (record_of (solve_all_recaptchas D self max_attempts w))
  <= max_attempts
     * (32500
        + (2 + Z.of_nat (List.length (CHALLENGE_IFRAME_SELECTORS self))
             + Z.of_nat (List.length (BUSTER_BUTTON_SELECTORS self)))
          * (1000 * timeout self)
        + Z.of_nat (List.length (BUSTER_BUTTON_SELECTORS self)) * 5000)
     + (max_attempts - 1) * 2000.
Proof.
  intros Hmax Htimeout.
  assert (Hfair : fair wall_clock) by (intros []; cbn; lia).
  pose proof (within_solve_all_recaptchas_loop wall_clock max_attempts
                (Z.to_nat max_attempts) Hfair 0 ltac:(lia) ltac:(lia) w) as H.
  unfold solve_all_recaptchas.
  unfold attempt_ceiling in H. cbn [wall_clock p_handles p_window p_frame
    p_default p_wait p_find p_click p_sleep] in H.
  rewrite !Z.max_r in H by lia.
  rewrite Z.sub_0_r in H.
  eapply Z.le_trans; [exact H|].
  apply Z.add_le_mono_r. apply Z.mul_le_mono_nonneg_l; lia.
Qed.

End Stages.

Ltac settle :=
  intros;
  repeat match goal with
    | H : _ /\ _ |- _ => destruct H
    | H : exists _, _ |- _ => destruct H
    | H : _ \/ _ |- _ => destruct H
    | H : In _ _ |- _ => cbn in H
    | H : False |- _ => destruct H
    | H : (_, _) = (_, _) |- _ => inversion H; clear H; subst
    | H : Return _ = Return _ |- _ => inversion H; clear H; subst
    | H : Click _ = Click _ |- _ => inversion H; clear H; subst
    | H : WaitUntil _ _ = Click _ |- _ => discriminate H
    end;
  try discriminate; try congruence; eauto 6.

Section Exits.

Variable D : Driver.
Variable self : RecaptchaSolver.

(** ** The checkbox click *)

(** X6: [click_recaptcha_checkbox] returns [True] exactly when the
    checkbox became clickable and its click went through, and [False]
    exactly when its [try] block ended in [TimeoutException] (from the wait,
    or from the click itself); it never clicks anything but the element its
    wait returned, and when the wait times out it does not click at all. *)
Theorem click_recaptcha_checkbox_outcomes (w : world D) :
  exists r t w',
    click_recaptcha_checkbox D self w = (r, t, w')
    /\ (r = Return true <->
        exists e w1,
          wait_until D (timeout self)
            (element_to_be_clickable (CHECKBOX_SELECTOR self)) w
          = (Return e, w1)
          /\ click D e w1 = (Return tt, w'))
    /\ (r = Return false <->
        wait_until D (timeout self)
          (element_to_be_clickable (CHECKBOX_SELECTOR self)) w
        = (Raise TimeoutException, w')
        \/ exists e w1,
             wait_until D (timeout self)
               (element_to_be_clickable (CHECKBOX_SELECTOR self)) w
             = (Return e, w1)
             /\ click D e w1 = (Raise TimeoutException, w'))
    /\ (forall e, In (Click e) t ->
        exists w1,
          wait_until D (timeout self)
            (element_to_be_clickable (CHECKBOX_SELECTOR self)) w
          = (Return e, w1))
    /\ (fst (wait_until D (timeout self)
               (element_to_be_clickable (CHECKBOX_SELECTOR self)) w)
        = Raise TimeoutException ->
        t = [button_wait_of self (CHECKBOX_SELECTOR self)]).
Proof.
  unfold click_recaptcha_checkbox, try_except, bind, until, element_click,
    command, ret, button_wait_of.
  destruct (wait_until D _ _ w) as [[e|x] w1] eqn:Hwait.
  - destruct (click D e w1) as [[[]|x] w2] eqn:Hclick;
      [|destruct x]; cbn [is_TimeoutException fst snd app];
      eexists _, _, _; (split; [reflexivity|]); repeat split; settle.
  - destruct x; cbn [is_TimeoutException fst snd app];
      eexists _, _, _; (split; [reflexivity|]); repeat split; settle.
Qed.

(** ** Records and context switches *)

Lemma context_switches_app (t t' : list call) :
  context_switches (t ++ t') = context_switches t ++ context_switches t'.
Proof. apply filter_app. Qed.

Lemma context_switches_quiet (t : list call) :
  Forall (fun c => is_context_switch c = false) t ->
  context_switches t = [].
Proof.
  induction 1 as [|c t Hc Ht IH]; [reflexivity|].
  cbn. rewrite Hc. exact IH.
Qed.

(** X7: whatever the driver does, the candidates are tried in the
    declared order and none is skipped or tried twice: the record of
    [find_challenge_iframe] is the lookups of the first [k] challenge
    selectors, and the waits in the record of [activate_buster_extension]
    are those of the first [k] Buster selectors, for some [k]. *)
Theorem candidates_tried_in_declared_order (w : world D) :
  (exists k,
      (k <= List.length (CHALLENGE_IFRAME_SELECTORS self))%nat
      /\ record_of (find_challenge_iframe D self w)
         = map (lookup_of self) (firstn k (CHALLENGE_IFRAME_SELECTORS self)))
  /\ (exists k,
        (k <= List.length (BUSTER_BUTTON_SELECTORS self))%nat
        /\ filter is_wait (record_of (activate_buster_extension D self w))
           = map (button_wait_of self)
               (firstn k (BUSTER_BUTTON_SELECTORS self))).
Proof.
  unfold find_challenge_iframe, activate_buster_extension. split.
  - generalize (CHALLENGE_IFRAME_SELECTORS self) as selectors.
    intros selectors. revert w.
    induction selectors as [|s rest IH]; intros w.
    + exists 0%nat. split; [cbn; lia|reflexivity].
    + rewrite find_challenge_iframe_from_step.
      destruct (wait_until D _ _ w) as [[iframe|[]] w1];
        try (exists 1%nat; split; [cbn; lia|reflexivity]).
      destruct (IH w1) as (k & Hk & Hrec).
      exists (S k). split; [cbn; lia|].
      unfold record_of in *.
      destruct (find_challenge_iframe_from D self rest w1) as [[r t] w2].
      cbn [after fst snd firstn map app] in *. now rewrite Hrec.
  - generalize (BUSTER_BUTTON_SELECTORS self) as selectors.
    intros selectors. revert w.
    induction selectors as [|s rest IH]; intros w.
    + exists 0%nat. split; [cbn; lia|reflexivity].
    + rewrite activate_buster_extension_from_step.
      destruct (wait_until D _ _ w) as [[button|[]] w1];
        try (exists 1%nat; split; [cbn; lia|reflexivity]).
      * destruct (click D button (elapse D 5000 w1)) as [[[]|[]] w2];
          try (exists 1%nat; split; [cbn; lia|reflexivity]).
        destruct (IH w2) as (k & Hk & Hrec).
        exists (S k). split; [cbn; lia|].
        unfold record_of in *.
        destruct (activate_buster_extension_from D self rest w2)
          as [[r t] w3].
        cbn [after fst snd firstn map app filter is_wait button_wait_of]
          in *.
        now rewrite Hrec.
      * destruct (IH w1) as (k & Hk & Hrec).
        exists (S k). split; [cbn; lia|].
        unfold record_of in *.
        destruct (activate_buster_extension_from D self rest w1)
          as [[r t] w3].
        cbn [after fst snd firstn map app filter is_wait button_wait_of]
          in *.
        now rewrite Hrec.
Qed.

Lemma find_challenge_iframe_from_none (selectors : list selector) :
  forall (w w1 : world D) (t : list call),
    find_challenge_iframe_from D self selectors w = (Return None, t, w1) ->
    lookups_time_out D self selectors w w1
    /\ t = map (lookup_of self) selectors.
Proof.
  induction selectors as [|s rest IH]; intros w w1 t.
  - cbn. unfold ret. intros H; inversion H. split; [constructor|reflexivity].
  - rewrite find_challenge_iframe_from_step.
    destruct (wait_until D _ _ w) as [[iframe|[]] wa] eqn:Hwait;
      try discriminate.
    destruct (find_challenge_iframe_from D self rest wa)
      as [[r t'] wb] eqn:Hrest.
    cbn [after]. intros H; inversion H; subst.
    destruct (IH _ _ _ Hrest) as (Hmiss & ->).
    split; [econstructor; eassumption|reflexivity].
Qed.

Lemma find_challenge_iframe_from_some (selectors : list selector) :
  forall (w w1 : world D) (t : list call) (iframe : WebElement),
    find_challenge_iframe_from D self selectors w
    = (Return (Some iframe), t, w1) ->
    exists misses s rest w0,
      selectors = misses ++ s :: rest
      /\ lookups_time_out D self misses w w0
      /\ wait_until D (timeout self) (presence_of_element_located s) w0
         = (Return iframe, w1)
      /\ t = map (lookup_of self) (misses ++ [s]).
Proof.
  induction selectors as [|s rest IH]; intros w w1 t iframe.
  - cbn. unfold ret. discriminate.
  - rewrite find_challenge_iframe_from_step.
    destruct (wait_until D _ _ w) as [[e|[]] wa] eqn:Hwait;
      try discriminate.
    + intros H; inversion H; subst.
      exists [], s, rest, w. repeat split; [constructor|assumption].
    + destruct (find_challenge_iframe_from D self rest wa)
        as [[r t'] wb] eqn:Hrest.
      cbn [after]. intros H; inversion H; subst.
      destruct (IH _ _ _ _ Hrest)
        as (misses & s' & rest' & w0 & -> & Hmiss & Hfound & ->).
      exists (s :: misses), s', rest', w0.
      repeat split; [econstructor; eassumption|assumption].
Qed.

(** X8: [find_challenge_iframe] returns [None] only when every
    candidate's wait ended in [TimeoutException], and an iframe only when it
    is the one found by the first candidate that did not time out; in both
    cases the record is exactly the lookups made up to there. *)
Theorem find_challenge_iframe_result
    (w w1 : world D) (t : list call) :
  (find_challenge_iframe D self w = (Return None, t, w1) <->
   lookups_time_out D self (CHALLENGE_IFRAME_SELECTORS self) w w1
   /\ t = map (lookup_of self) (CHALLENGE_IFRAME_SELECTORS self))
  /\ (forall iframe,
        find_challenge_iframe D self w = (Return (Some iframe), t, w1) <->
        exists misses s rest w0,
          CHALLENGE_IFRAME_SELECTORS self = misses ++ s :: rest
          /\ lookups_time_out D self misses w w0
          /\ wait_until D (timeout self) (presence_of_element_located s) w0
             = (Return iframe, w1)
          /\ t = map (lookup_of self) (misses ++ [s])).
Proof.
  unfold find_challenge_iframe. split.
  - split.
    + apply find_challenge_iframe_from_none.
    + intros (Hmiss & ->). now apply find_challenge_iframe_from_exhausted.
  - intros iframe. split.
    + apply find_challenge_iframe_from_some.
    + intros (misses & s & rest & w0 & -> & Hmiss & Hfound & ->).
      now apply find_challenge_iframe_from_first_match with (w1 := w0).
Qed.

End Exits.

Section Paths.

Variable D : Driver.
Variable self : RecaptchaSolver.

(** ** Aborting before the challenge *)

(** X9: when the checkbox iframe is entered but
    [click_recaptcha_checkbox] returns [False], the attempt returns [False]
    at once: no settle delay, no already-solved check, no challenge stage;
    the only further call is the closing switch to the top level. *)
Theorem unclickable_checkbox_aborts
    (max_wait_time : Z) (w w0 w1 w2 w3 : world D) (t0 t3 : list call)
    (iframe : WebElement) :
  handle_extension_tabs D w = (Return tt, t0, w0) ->
  wait_until D (timeout self)
    (presence_of_element_located (CHECKBOX_IFRAME_SELECTOR self)) w0
    = (Return iframe, w1) ->
  switch_to_frame D iframe w1 = (Return tt, w2) ->
  click_recaptcha_checkbox D self w2 = (Return false, t3, w3) ->
  solve_recaptcha D self max_wait_time w
  = (Return false,
     t0 ++ [lookup_of self (CHECKBOX_IFRAME_SELECTOR self);
            SwitchToFrame iframe]
        ++ t3 ++ [SwitchToDefaultContent],
     snd (switch_to_default_content D w3)).
Proof.
  intros Htabs Hiframe Hframe Hclick.
  rewrite solve_recaptcha_unfold.
  unfold solve_recaptcha_body.
  rewrite (bind_return D _ _ _ _ _ _ Htabs).
  erewrite bind_return
    by (rewrite find_recaptcha_checkbox_iframe_run, Hiframe; reflexivity).
  cbv beta iota. unfold driver_switch_to_frame.
  rewrite (bind_return D _ _ _ _ _ _ (command_run D _ _ _ _ _ Hframe)).
  rewrite (bind_return D _ _ _ _ _ _ Hclick).
  cbn [negb]. unfold ret, after. cbn [fst snd surfaced].
  rewrite app_nil_r, <- !app_assoc. reflexivity.
Qed.

(** X10: [handle_extension_tabs] reads [window_handles] twice and goes
    by the second reading: with at most one handle it does nothing; with
    more, it sends the driver one switch, to the first handle of the second
    reading, and its outcome and the world it leaves are those of that
    switch; and if that reading is empty it raises [IndexError] without
    switching, which [solve_recaptcha] turns into [False] after the closing
    switch alone. *)
Theorem handle_extension_tabs_rereads_handles
    (handles : list handle) (w w1 : world D) :
  window_handles D w = (Return handles, w1) ->
  ((List.length handles <= 1)%nat ->
   handle_extension_tabs D w = (Return tt, [GetWindowHandles], w1))
  /\ (forall handles' w2,
        (List.length handles > 1)%nat ->
        window_handles D w1 = (Return handles', w2) ->
        match handles' with
        | [] =>
            handle_extension_tabs D w
            = (Raise IndexError, [GetWindowHandles; GetWindowHandles], w2)
            /\ forall max_wait_time,
                 solve_recaptcha D self max_wait_time w
                 = (Return false,
                    [GetWindowHandles; GetWindowHandles;
                     SwitchToDefaultContent],
                    snd (switch_to_default_content D w2))
        | h :: _ =>
            handle_extension_tabs D w
            = match switch_to_window D h w2 with
              | (Return _, w3) =>
                  (Return tt,
                   [GetWindowHandles; GetWindowHandles; SwitchToWindow h;
                    Sleep 500],
                   elapse D 500 w3)
              | (Raise e, w3) =>
                  (Raise e,
                   [GetWindowHandles; GetWindowHandles; SwitchToWindow h],
                   w3)
              end
            /\ context_switches (record_of (handle_extension_tabs D w))
               = [SwitchToWindow h]
        end).
Proof.
  intros Hw. split.
  - intros Hlen. unfold handle_extension_tabs, driver_window_handles.
    rewrite (bind_return D _ _ _ _ _ _ (command_run D _ _ _ _ _ Hw)).
    replace (Z.of_nat (List.length handles) >? 1) with false
      by (symmetry; rewrite Z.gtb_ltb; apply Z.ltb_ge; lia).
    reflexivity.
  - intros handles' w2 Hlen Hw1.
    pose proof (handle_extension_tabs_second_reading D _ _ _ _ _
                  Hw Hlen Hw1) as Htabs.
    destruct handles' as [|h rest].
    + split; [exact Htabs|].
      intros max_wait_time. rewrite solve_recaptcha_unfold.
      unfold solve_recaptcha_body.
      rewrite (bind_raise D _ _ _ _ _ _ Htabs). reflexivity.
    + rewrite Htabs. split; [reflexivity|].
      destruct (switch_to_window D h w2) as [[[]|e] w3]; reflexivity.
Qed.

(** ** The retry loop *)

Lemma attempts_run_ends_at_top (w w' : world D) k b t :
  attempts_run D self w k b t w' ->
  exists t0, t = t0 ++ [SwitchToDefaultContent].
Proof.
  induction 1 as [w b t w' Hsolve | w t w1 k b t' w' Hsolve Hrun IH].
  - rewrite solve_recaptcha_unfold in Hsolve. inversion Hsolve. eauto.
  - destruct IH as (t0 & ->).
    exists (t ++ Sleep 2000 :: t0). now rewrite <- app_assoc.
Qed.

(** X11: with [max_attempts = 1], [solve_all_recaptchas] is exactly one
    [solve_recaptcha] with the default budget of 30 seconds; and for every
    [max_attempts >= 1] its record ends with the closing switch to the top
    level of the last attempt: no delay is spent after the last attempt,
    failed or not. *)
Theorem retry_ends_with_last_attempt (w : world D) :
  solve_all_recaptchas D self 1 w = solve_recaptcha D self 30 w
  /\ (forall max_attempts,
        1 <= max_attempts ->
        exists t0,
          record_of (solve_all_recaptchas D self max_attempts w)
          = t0 ++ [SwitchToDefaultContent]).
Proof.
  split.
  - destruct (solve_recaptcha D self 30 w) as [[r t] w'] eqn:Hsolve.
    assert (Hr : exists b, r = Return b)
      by (rewrite solve_recaptcha_unfold in Hsolve; inversion Hsolve; eauto).
    destruct Hr as [b ->].
    apply (solve_all_recaptchas_loop_follows D self 1 w 1%nat b t w');
      [now constructor|intros _; lia|intros _; lia].
  - intros max_attempts Hmax.
    destruct (solve_all_recaptchas_loop_runs D self max_attempts
                (Z.to_nat max_attempts) 0 w)
      as (k & b & t & w' & Hloop & Hrun & _); [lia|lia|].
    unfold solve_all_recaptchas. rewrite Hloop.
    apply (attempts_run_ends_at_top _ _ _ _ _ Hrun).
Qed.

(** X12: allowing more attempts never turns a success into a failure:
    if [solve_all_recaptchas] succeeds with some bound on the attempts, it
    returns [True] with the same record and leaves the same world under any
    larger bound. *)
Theorem more_attempts_keep_success
    (n m : Z) (w w' : world D) (t : list call) :
  n <= m ->
  solve_all_recaptchas D self n w = (Return true, t, w') ->
  solve_all_recaptchas D self m w = (Return true, t, w').
Proof.
  intros Hnm Hn.
  destruct (Z_lt_dec n 1) as [Hsmall|Hbig].
  - unfold solve_all_recaptchas in Hn.
    rewrite solve_all_recaptchas_loop_exit in Hn by lia. discriminate.
  - destruct (solve_all_recaptchas_loop_runs D self n (Z.to_nat n) 0 w)
      as (k & b & t1 & w1 & Hloop & Hrun & Hle & _); [lia|lia|].
    unfold solve_all_recaptchas in *. rewrite Hloop in Hn.
    inversion Hn; subst.
    apply (solve_all_recaptchas_loop_follows D self m w k true t w' Hrun);
      [intros _; lia|discriminate].
Qed.

End Paths.

(** ** The challenge case *)

Section ChallengeCase.

Variable D : Driver.
Variable self : RecaptchaSolver.
Variable max_wait_time : Z.
Variables w w0 w1 w2 w3 w4 w5 w6 : world D.
Variable t0 : list call.
Variables iframe anchor : WebElement.

(** The attempt reaches the challenge case: the checkbox is clicked, the
    check made two seconds later misses, and the driver is back at the top
    level. *)
Hypothesis Htabs : handle_extension_tabs D w = (Return tt, t0, w0).
Hypothesis Hiframe :
  wait_until D (timeout self)
    (presence_of_element_located (CHECKBOX_IFRAME_SELECTOR self)) w0
  = (Return iframe, w1).
Hypothesis Hframe : switch_to_frame D iframe w1 = (Return tt, w2).
Hypothesis Hanchor :
  wait_until D (timeout self)
    (element_to_be_clickable (CHECKBOX_SELECTOR self)) w2
  = (Return anchor, w3).
Hypothesis Hclick : click D anchor w3 = (Return tt, w4).
Hypothesis Hmiss :
  find_element D (CHECKBOX_CHECKED_SELECTOR self) (elapse D 2000 w4)
  = (Raise NoSuchElementException, w5).
Hypothesis Htop : switch_to_default_content D w5 = (Return tt, w6).

Lemma solve_recaptcha_body_challenge :
  solve_recaptcha_body D self max_wait_time w
  = after D (solved_check_record self t0 iframe anchor
               ++ [SwitchToDefaultContent])
      (bind (find_challenge_iframe D self)
         (fun challenge_iframe : option WebElement =>
            match challenge_iframe with
            | None => ret false
            | Some challenge_iframe =>
                bind (driver_switch_to_frame D challenge_iframe) (fun _ =>
                bind (activate_buster_extension D self)
                  (fun activated : bool =>
                     if negb activated then ret false else
                     bind (driver_switch_to_default_content D) (fun _ =>
                     bind (driver_switch_to_frame D iframe) (fun _ =>
                     wait_for_solution D self max_wait_time))))
            end)
         w6).
Proof.
  rewrite (solve_recaptcha_body_clicked D self _ _ _ _ _ _ _ _ _ _
             Htabs Hiframe Hframe Hanchor Hclick).
  erewrite bind_return
    by (rewrite is_recaptcha_solved_run, Hmiss; reflexivity).
  cbv beta iota.
  unfold solve_recaptcha_challenge at 1,
    driver_switch_to_default_content at 1.
  rewrite (bind_return D _ _ _ _ _ _ (command_run D _ _ _ _ _ Htop)).
  rewrite !after_after. unfold solved_check_record.
  rewrite <- !app_assoc. reflexivity.
Qed.

(** X13: in the challenge case, when every challenge candidate times
    out the attempt returns [False] without touching any frame or the
    Buster button: after the lookups the only call is the closing switch. *)
Theorem missing_challenge_iframe_aborts (w7 : world D) (tc : list call) :
  find_challenge_iframe D self w6 = (Return None, tc, w7) ->
  solve_recaptcha D self max_wait_time w
  = (Return false,
     solved_check_record self t0 iframe anchor
       ++ [SwitchToDefaultContent] ++ tc ++ [SwitchToDefaultContent],
     snd (switch_to_default_content D w7)).
Proof.
  intros Hfind.
  rewrite solve_recaptcha_unfold, solve_recaptcha_body_challenge.
  rewrite (bind_return D _ _ _ _ _ _ Hfind).
  unfold ret, after. cbn [fst snd surfaced].
  rewrite app_nil_r, <- !app_assoc. reflexivity.
Qed.

(** X14: in the challenge case, when the challenge iframe is entered
    but [activate_buster_extension] returns [False], the attempt returns
    [False] without going back to the checkbox frame and without polling
    for completion. *)
Theorem failed_activation_aborts
    (w7 w8 w9 : world D) (tc ta : list call) (challenge : WebElement) :
  find_challenge_iframe D self w6 = (Return (Some challenge), tc, w7) ->
  switch_to_frame D challenge w7 = (Return tt, w8) ->
  activate_buster_extension D self w8 = (Return false, ta, w9) ->
  solve_recaptcha D self max_wait_time w
  = (Return false,
     solved_check_record self t0 iframe anchor
       ++ [SwitchToDefaultContent] ++ tc ++ [SwitchToFrame challenge]
       ++ ta ++ [SwitchToDefaultContent],
     snd (switch_to_default_content D w9)).
Proof.
  intros Hfind Henter Hactivate.
  assert (Hbody :
    solve_recaptcha_body D self max_wait_time w
    = (Return false,
       solved_check_record self t0 iframe anchor
         ++ [SwitchToDefaultContent] ++ tc ++ [SwitchToFrame challenge]
         ++ ta,
       w9)).
  { rewrite solve_recaptcha_body_challenge.
    rewrite (bind_return D _ _ _ _ _ _ Hfind). cbv beta iota.
    unfold driver_switch_to_frame.
    rewrite (bind_return D _ _ _ _ _ _ (command_run D _ _ _ _ _ Henter)).
    rewrite (bind_return D _ _ _ _ _ _ Hactivate).
    cbn [negb]. unfold ret, after.
    rewrite app_nil_r, <- !app_assoc. reflexivity. }
  rewrite solve_recaptcha_unfold, Hbody. cbn [fst snd surfaced].
  rewrite <- !app_assoc. reflexivity.
Qed.

(** X15: in the challenge case, once Buster is activated and the
    checkbox frame re-entered from the top level, the attempt returns
    exactly what the completion poll observes: [True] if the checked-state
    selector appears within [max_wait_time], [False] if the poll times out
    or faults.  Its context switches are, in order: into the checkbox
    frame, top, into the challenge frame, top, into the checkbox frame,
    top. *)
Theorem challenge_case_result
    (w7 w8 w9 w10 w11 : world D) (tc ta : list call)
    (challenge : WebElement) :
  find_challenge_iframe D self w6 = (Return (Some challenge), tc, w7) ->
  switch_to_frame D challenge w7 = (Return tt, w8) ->
  activate_buster_extension D self w8 = (Return true, ta, w9) ->
  switch_to_default_content D w9 = (Return tt, w10) ->
  switch_to_frame D iframe w10 = (Return tt, w11) ->
  solve_recaptcha D self max_wait_time w
  = (Return
       (found
          (fst (wait_until D max_wait_time
                  (presence_of_element_located
                     (CHECKBOX_CHECKED_SELECTOR self)) w11))),
     solved_check_record self t0 iframe anchor
       ++ [SwitchToDefaultContent] ++ tc ++ [SwitchToFrame challenge]
       ++ ta
       ++ [SwitchToDefaultContent;
           SwitchToFrame iframe;
           WaitUntil max_wait_time
             (presence_of_element_located (CHECKBOX_CHECKED_SELECTOR self));
           SwitchToDefaultContent],
     snd (switch_to_default_content D
            (snd (wait_until D max_wait_time
                    (presence_of_element_located
                       (CHECKBOX_CHECKED_SELECTOR self)) w11))))
  /\ context_switches
       (record_of (solve_recaptcha D self max_wait_time w))
     = context_switches t0
         ++ [SwitchToFrame iframe; SwitchToDefaultContent;
             SwitchToFrame challenge; SwitchToDefaultContent;
             SwitchToFrame iframe; SwitchToDefaultContent].
Proof.
  intros Hfind Henter Hactivate Hback Hreenter.
  assert (Hsolve :
    solve_recaptcha D self max_wait_time w
    = (Return
         (found
            (fst (wait_until D max_wait_time
                    (presence_of_element_located
                       (CHECKBOX_CHECKED_SELECTOR self)) w11))),
       solved_check_record self t0 iframe anchor
         ++ [SwitchToDefaultContent] ++ tc ++ [SwitchToFrame challenge]
         ++ ta
         ++ [SwitchToDefaultContent;
             SwitchToFrame iframe;
             WaitUntil max_wait_time
               (presence_of_element_located (CHECKBOX_CHECKED_SELECTOR self));
             SwitchToDefaultContent],
       snd (switch_to_default_content D
              (snd (wait_until D max_wait_time
                      (presence_of_element_located
                         (CHECKBOX_CHECKED_SELECTOR self)) w11))))).
  { assert (Hbody :
      solve_recaptcha_body D self max_wait_time w
      = after D
          (solved_check_record self t0 iframe anchor
             ++ [SwitchToDefaultContent] ++ tc ++ [SwitchToFrame challenge]
             ++ ta ++ [SwitchToDefaultContent; SwitchToFrame iframe])
          (wait_for_solution D self max_wait_time w11)).
    { rewrite solve_recaptcha_body_challenge.
      rewrite (bind_return D _ _ _ _ _ _ Hfind). cbv beta iota.
      unfold driver_switch_to_frame at 1.
      rewrite (bind_return D _ _ _ _ _ _ (command_run D _ _ _ _ _ Henter)).
      rewrite (bind_return D _ _ _ _ _ _ Hactivate).
      cbn [negb]. unfold driver_switch_to_default_content.
      rewrite (bind_return D _ _ _ _ _ _ (command_run D _ _ _ _ _ Hback)).
      unfold driver_switch_to_frame.
      rewrite (bind_return D _ _ _ _ _ _ (command_run D _ _ _ _ _ Hreenter)).
      rewrite !after_after, <- !app_assoc. reflexivity. }
    rewrite solve_recaptcha_unfold, Hbody, wait_for_solution_run.
    destruct (wait_until D max_wait_time _ w11) as [[mark|[]] w12];
      unfold after; cbn [fst snd surfaced found];
      rewrite <- !app_assoc; reflexivity. }
  split; [exact Hsolve|].
  rewrite Hsolve. unfold record_of, solved_check_record. cbn [fst snd].
  pose proof (always_find_challenge_iframe_from D self
                (fun c => is_context_switch c = false)
                (CHALLENGE_IFRAME_SELECTORS self)
                (fun _ _ => eq_refl) w6) as Hquiet_find.
  pose proof (always_activate_buster_extension_from D self
                (fun c => is_context_switch c = false)
                (BUSTER_BUTTON_SELECTORS self)
                (fun _ _ => eq_refl) eq_refl (fun _ => eq_refl) w8)
    as Hquiet_activate.
  fold (find_challenge_iframe D self) in Hquiet_find.
  fold (activate_buster_extension D self) in Hquiet_activate.
  rewrite Hfind in Hquiet_find. rewrite Hactivate in Hquiet_activate.
  unfold record_of in Hquiet_find, Hquiet_activate.
  cbn [fst snd] in Hquiet_find, Hquiet_activate.
  rewrite !context_switches_app.
  rewrite (context_switches_quiet tc Hquiet_find),
    (context_switches_quiet ta Hquiet_activate).
  rewrite <- !app_assoc. reflexivity.
Qed.

End ChallengeCase.

(** ** Faults and successes in the fallback loops *)

Section Fallback.

Variable D : Driver.
Variable self : RecaptchaSolver.

Lemma after_raise {A} (t t' : list call) (x : exn) (w : world D) :
  after D t (@Raise A x, t', w) = (Raise x, t ++ t', w).
Proof. reflexivity. Qed.

Lemma find_challenge_iframe_from_fault
    (misses : list selector) (s : selector) (rest : list selector)
    (w w1 w2 : world D) (x : exn) :
  x <> TimeoutException ->
  lookups_time_out D self misses w w1 ->
  wait_until D (timeout self) (presence_of_element_located s) w1
    = (Raise x, w2) ->
  find_challenge_iframe_from D self (misses ++ s :: rest) w
  = (Raise x, map (lookup_of self) (misses ++ [s]), w2).
Proof.
  intros Hx Hmiss. revert Hx.
  induction Hmiss as [w | m misses w wa wb Hm Hrest IH]; intros Hx Hfault;
    cbn [app map]; rewrite find_challenge_iframe_from_step.
  - rewrite Hfault. destruct x; [contradiction| | |]; reflexivity.
  - rewrite Hm, (IH Hx Hfault). reflexivity.
Qed.

Lemma activate_buster_extension_from_wait_fault
    (misses : list selector) (s : selector) (rest : list selector)
    (w w1 w2 : world D) (t : list call) (x : exn) :
  x <> TimeoutException ->
  all_passed_over D self misses w t w1 ->
  wait_until D (timeout self) (element_to_be_clickable s) w1
    = (Raise x, w2) ->
  activate_buster_extension_from D self (misses ++ s :: rest) w
  = (Raise x, t ++ [button_wait_of self s], w2).
Proof.
  intros Hx Hmiss. revert Hx.
  induction Hmiss as [w | m misses w t wa t' wb Hm Hrest IH];
    intros Hx Hfault; cbn [app].
  - rewrite activate_buster_extension_from_step, Hfault.
    destruct x; [contradiction| | |]; reflexivity.
  - rewrite (passed_over_step D self _ _ _ _ _ Hm), (IH Hx Hfault).
    cbn [after]. now rewrite app_assoc.
Qed.

Lemma activate_buster_extension_from_click_fault
    (misses : list selector) (s : selector) (rest : list selector)
    (w w1 w2 w3 : world D) (t : list call) (button : WebElement) (x : exn) :
  x <> TimeoutException ->
  all_passed_over D self misses w t w1 ->
  wait_until D (timeout self) (element_to_be_clickable s) w1
    = (Return button, w2) ->
  click D button (elapse D 5000 w2) = (Raise x, w3) ->
  activate_buster_extension_from D self (misses ++ s :: rest) w
  = (Raise x, t ++ [button_wait_of self s; Sleep 5000; Click button], w3).
Proof.
  intros Hx Hmiss. revert Hx.
  induction Hmiss as [w | m misses w t wa t' wb Hm Hrest IH];
    intros Hx Hwait Hfault; cbn [app].
  - rewrite activate_buster_extension_from_step, Hwait, Hfault.
    destruct x; [contradiction| | |]; reflexivity.
  - rewrite (passed_over_step D self _ _ _ _ _ Hm), (IH Hx Hwait Hfault).
    cbn [after]. now rewrite app_assoc.
Qed.

(** X16: a fault of the driver other than [TimeoutException] is not
    taken for a miss: it ends [find_challenge_iframe] and
    [activate_buster_extension] at once, is raised to the caller unchanged,
    and the candidates that follow are not tried. *)
Theorem fault_ends_the_fallback (x : exn) :
  x <> TimeoutException ->
  (forall misses s rest w w1 w2,
      CHALLENGE_IFRAME_SELECTORS self = misses ++ s :: rest ->
      lookups_time_out D self misses w w1 ->
      wait_until D (timeout self) (presence_of_element_located s) w1
        = (Raise x, w2) ->
      find_challenge_iframe D self w
      = (Raise x, map (lookup_of self) (misses ++ [s]), w2))
  /\ (forall misses s rest w t w1 w2,
        BUSTER_BUTTON_SELECTORS self = misses ++ s :: rest ->
        all_passed_over D self misses w t w1 ->
        wait_until D (timeout self) (element_to_be_clickable s) w1
          = (Raise x, w2) ->
        activate_buster_extension D self w
        = (Raise x, t ++ [button_wait_of self s], w2))
  /\ (forall misses s rest w t w1 w2 w3 button,
        BUSTER_BUTTON_SELECTORS self = misses ++ s :: rest ->
        all_passed_over D self misses w t w1 ->
        wait_until D (timeout self) (element_to_be_clickable s) w1
          = (Return button, w2) ->
        click D button (elapse D 5000 w2) = (Raise x, w3) ->
        activate_buster_extension D self w
        = (Raise x,
           t ++ [button_wait_of self s; Sleep 5000; Click button], w3)).
Proof.
  intros Hx. unfold find_challenge_iframe, activate_buster_extension.
  split; [|split].
  - intros misses s rest w w1 w2 -> Hmiss Hfault.
    now apply find_challenge_iframe_from_fault with (w1 := w1).
  - intros misses s rest w t w1 w2 -> Hmiss Hfault.
    now apply activate_buster_extension_from_wait_fault with (w1 := w1).
  - intros misses s rest w t w1 w2 w3 button -> Hmiss Hwait Hfault.
    now apply activate_buster_extension_from_click_fault
      with (w1 := w1) (w2 := w2).
Qed.

Lemma activate_buster_extension_from_true (selectors : list selector) :
  forall (w w3 : world D) (t : list call),
    activate_buster_extension_from D self selectors w = (Return true, t, w3) ->
    exists misses s rest t0 w1 w2 button,
      selectors = misses ++ s :: rest
      /\ all_passed_over D self misses w t0 w1
      /\ wait_until D (timeout self) (element_to_be_clickable s) w1
         = (Return button, w2)
      /\ click D button (elapse D 5000 w2) = (Return tt, w3)
      /\ t = t0 ++ [button_wait_of self s; Sleep 5000; Click button].
Proof.
  induction selectors as [|s rest IH]; intros w w3 t.
  - cbn. unfold ret. discriminate.
  - rewrite activate_buster_extension_from_step.
    destruct (wait_until D _ _ w) as [[button|x] wa] eqn:Hwait.
    + destruct (click D button (elapse D 5000 wa)) as [[[]|x] wb] eqn:Hclick.
      * intros H; inversion H; subst.
        exists [], s, rest, [], w, wa, button.
        repeat split; [constructor|assumption|assumption].
      * destruct x; try discriminate.
        destruct (activate_buster_extension_from D self rest wb)
          as [[r t'] wc] eqn:Hrest.
        cbn [after]. intros H; inversion H; subst.
        destruct (IH _ _ _ Hrest)
          as (misses & s' & rest' & t0 & w1 & w2 & button' & -> & Hmiss
              & Hwait' & Hclick' & ->).
        exists (s :: misses), s', rest',
          ([button_wait_of self s; Sleep 5000; Click button] ++ t0),
          w1, w2, button'.
        split; [reflexivity|].
        split; [econstructor;
                  [eapply click_timed_out; eassumption|assumption]|].
        split; [assumption|]. split; [assumption|].
        now rewrite <- app_assoc.
    + destruct x; try discriminate.
      destruct (activate_buster_extension_from D self rest wa)
        as [[r t'] wc] eqn:Hrest.
      cbn [after]. intros H; inversion H; subst.
      destruct (IH _ _ _ Hrest)
        as (misses & s' & rest' & t0 & w1 & w2 & button' & -> & Hmiss
            & Hwait' & Hclick' & ->).
      exists (s :: misses), s', rest', ([button_wait_of self s] ++ t0),
        w1, w2, button'.
      split; [reflexivity|].
      split; [econstructor;
                [eapply never_clickable; eassumption|assumption]|].
      split; [assumption|]. split; [assumption|].
      now rewrite <- app_assoc.
Qed.

(** X17: [activate_buster_extension] returns [True] only when a click
    went through: the last three calls of its record are the wait for a
    Buster candidate, the five second pause and the click on the button
    that wait returned, answered normally by the driver, every earlier
    candidate having been passed over. *)
Theorem activation_true_means_clicked
    (w w3 : world D) (t : list call) :
  activate_buster_extension D self w = (Return true, t, w3) ->
  exists misses s rest t0 w1 w2 button,
    BUSTER_BUTTON_SELECTORS self = misses ++ s :: rest
    /\ all_passed_over D self misses w t0 w1
    /\ wait_until D (timeout self) (element_to_be_clickable s) w1
       = (Return button, w2)
    /\ click D button (elapse D 5000 w2) = (Return tt, w3)
    /\ t = t0 ++ [button_wait_of self s; Sleep 5000; Click button].
Proof. apply activate_buster_extension_from_true. Qed.

End Fallback.

(** * Runs on the scripted driver *)

Import Fixtures.
Open Scope string_scope.
Open Scope list_scope.

(** The closing switch to the top level faults (as it does while an alert
    is open, or once the browser is gone): the fault is swallowed,
    [solve_recaptcha] returns, and the session's focus is still inside the
    checkbox frame. *)
Lemma focus_stranded_when_cleanup_faults :
  restores_top_level Scripted
  /\ solve_recaptcha Scripted (init 20) 30 (play easy_case_stranded)
     = (Return true,
        [GetWindowHandles;
         WaitUntil 20 (presence_of_element_located "iframe[title='reCAPTCHA']");
         SwitchToFrame checkbox_iframe;
         WaitUntil 20 (element_to_be_clickable "#recaptcha-anchor");
         Click checkbox;
         Sleep 2000;
         FindElement "#recaptcha-anchor[aria-checked='true']";
         SwitchToDefaultContent],
        {| script := []; focus := [checkbox_iframe] |})
  /\ frame_path Scripted
       (snd (solve_recaptcha Scripted (init 20) 30 (play easy_case_stranded)))
     <> [].
Proof.
  split; [exact Scripted_restores_top_level|].
  split; [reflexivity|]. cbn. discriminate.
Qed.

(** The first Buster candidate becomes clickable, yet the lookup does not
    return on it: its click times out and the second candidate is tried. *)
Lemma activation_goes_past_first_match :
  wait_until Scripted 20 (element_to_be_clickable "div.help-button-holder")
    (play first_click_times_out)
  = (Return buster_button,
     {| script := [Fault TimeoutException; Found other_button; Done];
        focus := [] |})
  /\ activate_buster_extension Scripted (init 20) (play first_click_times_out)
     = (Return true,
        [WaitUntil 20 (element_to_be_clickable "div.help-button-holder");
         Sleep 5000;
         Click buster_button;
         WaitUntil 20 (element_to_be_clickable ".help-button-holder");
         Sleep 5000;
         Click other_button],
        {| script := []; focus := [] |}).
Proof. split; reflexivity. Qed.

(** The first Buster candidate becomes clickable within the budget, yet
    [activate_buster_extension] returns [false]. *)
Lemma activation_false_despite_clickable_button :
  wait_until Scripted 20 (element_to_be_clickable "div.help-button-holder")
    (play only_click_times_out)
  = (Return buster_button,
     {| script := [Fault TimeoutException; Fault TimeoutException;
                   Fault TimeoutException];
        focus := [] |})
  /\ activate_buster_extension Scripted (init 20) (play only_click_times_out)
     = (Return false,
        [WaitUntil 20 (element_to_be_clickable "div.help-button-holder");
         Sleep 5000;
         Click buster_button;
         WaitUntil 20 (element_to_be_clickable ".help-button-holder");
         WaitUntil 20 (element_to_be_clickable "[class*='help-button']")],
        {| script := []; focus := [] |}).
Proof. split; reflexivity. Qed.

(** ** Instances of the theorems *)

Lemma solve_recaptcha_ends_with_top_level_switch_run :
  restores_top_level Scripted
  /\ exists b t w1 r w',
       try_except (solve_recaptcha_body Scripted (init 20) 30) is_Exception
         (fun _ => ret false) (play challenge_case) = (Return b, t, w1)
       /\ switch_to_default_content Scripted w1 = (r, w')
       /\ solve_recaptcha Scripted (init 20) 30 (play challenge_case)
          = (Return b, t ++ [SwitchToDefaultContent], w')
       /\ (r = Return tt -> frame_path Scripted w' = []).
Proof.
  split; [exact Scripted_restores_top_level|].
  exact (solve_recaptcha_ends_with_top_level_switch Scripted (init 20)
           Scripted_restores_top_level 30 (play challenge_case)).
Defined.

Lemma already_solved_returns_at_once_run :
  solve_recaptcha Scripted (init 20) 30 (play easy_case)
  = (Return true,
     [GetWindowHandles;
      WaitUntil 20 (presence_of_element_located "iframe[title='reCAPTCHA']");
      SwitchToFrame checkbox_iframe;
      WaitUntil 20 (element_to_be_clickable "#recaptcha-anchor");
      Click checkbox;
      Sleep 2000;
      FindElement "#recaptcha-anchor[aria-checked='true']";
      SwitchToDefaultContent],
     {| script := []; focus := [] |}).
Proof.
  apply (already_solved_returns_at_once Scripted (init 20) 30
           (play easy_case)
           (played 1 easy_case []) (played 2 easy_case [])
           (played 3 easy_case [checkbox_iframe])
           (played 4 easy_case [checkbox_iframe])
           (played 5 easy_case [checkbox_iframe])
           (played 6 easy_case [checkbox_iframe])
           [GetWindowHandles] checkbox_iframe checkbox checkbox);
    reflexivity.
Defined.

Lemma solve_all_recaptchas_bounded_retry_run :
  1 <= 3
  /\ exists t w',
       attempts_run Scripted (init 20)
         (play (no_widget ++ no_widget ++ easy_case)) 3 true t w'
       /\ solve_all_recaptchas Scripted (init 20) 3
            (play (no_widget ++ no_widget ++ easy_case))
          = (Return true, t, w').
Proof.
  split; [lia|].
  assert (Hrun : exists t w',
             attempts_run Scripted (init 20)
               (play (no_widget ++ no_widget ++ easy_case)) 3 true t w').
  { eexists _, _.
    eapply run_retry; [reflexivity|].
    eapply run_retry; [reflexivity|].
    apply run_last. reflexivity. }
  destruct Hrun as (t & w' & Hrun). exists t, w'. split; [exact Hrun|].
  apply (proj1 (solve_all_recaptchas_bounded_retry Scripted (init 20) 3
                  (play (no_widget ++ no_widget ++ easy_case))
                  ltac:(lia)) 3%nat t w' Hrun).
  lia.
Defined.

Lemma no_checkbox_iframe_fails_fast_run :
  solve_recaptcha Scripted (init 20) 30 (play no_widget)
  = (Return false,
     [GetWindowHandles;
      WaitUntil 20 (presence_of_element_located "iframe[title='reCAPTCHA']");
      SwitchToDefaultContent],
     {| script := []; focus := [] |}).
Proof.
  apply (no_checkbox_iframe_fails_fast Scripted (init 20) 30
           (play no_widget) (played 1 no_widget []) (played 2 no_widget [])
           [GetWindowHandles]
           [WaitUntil 20
              (presence_of_element_located "iframe[title='reCAPTCHA']")]);
    reflexivity.
Defined.

Lemma fallback_tries_candidates_in_order_run :
  find_challenge_iframe Scripted (init 20) (play third_candidate)
  = (Return (Some challenge_iframe),
     [WaitUntil 20
        (presence_of_element_located
           "iframe[title='recaptcha challenge expires in two minutes']");
      WaitUntil 20
        (presence_of_element_located "iframe[title='recaptcha challenge']");
      WaitUntil 20 (presence_of_element_located "iframe[src*='bframe']")],
     {| script := []; focus := [] |})
  /\ find_challenge_iframe Scripted (init 20) (play three_misses)
     = (Return None,
        map (lookup_of (init 20)) (CHALLENGE_IFRAME_SELECTORS (init 20)),
        {| script := []; focus := [] |})
  /\ activate_buster_extension Scripted (init 20) (play first_click_times_out)
     = (Return true,
        [WaitUntil 20 (element_to_be_clickable "div.help-button-holder");
         Sleep 5000;
         Click buster_button;
         WaitUntil 20 (element_to_be_clickable ".help-button-holder");
         Sleep 5000;
         Click other_button],
        {| script := []; focus := [] |})
  /\ activate_buster_extension Scripted (init 20) (play three_misses)
     = (Return false,
        map (button_wait_of (init 20)) (BUSTER_BUTTON_SELECTORS (init 20)),
        {| script := []; focus := [] |}).
Proof.
  destruct (fallback_tries_candidates_in_order Scripted (init 20))
    as (Hfirst & Hnone & Hclick & Hfalse).
  split; [|split; [|split]].
  - apply (Hfirst
             ["iframe[title='recaptcha challenge expires in two minutes']";
              "iframe[title='recaptcha challenge']"]
             "iframe[src*='bframe']" []
             (play third_candidate) (played 2 third_candidate []));
      [reflexivity| |reflexivity].
    eapply time_out_cons; [reflexivity|].
    eapply time_out_cons; [reflexivity|]. apply time_out_nil.
  - apply Hnone.
    eapply time_out_cons; [reflexivity|].
    eapply time_out_cons; [reflexivity|].
    eapply time_out_cons; [reflexivity|]. apply time_out_nil.
  - apply (Hclick ["div.help-button-holder"] ".help-button-holder"
             ["[class*='help-button']"]
             (play first_click_times_out)
             [WaitUntil 20 (element_to_be_clickable "div.help-button-holder");
              Sleep 5000; Click buster_button]
             (played 2 first_click_times_out [])
             (played 3 first_click_times_out []));
      [reflexivity| |reflexivity|reflexivity].
    eapply (passed_cons Scripted (init 20) _ _ _
             [button_wait_of (init 20) "div.help-button-holder";
              Sleep 5000; Click buster_button] _ [] _);
      [|apply passed_nil].
    eapply click_timed_out; reflexivity.
  - apply Hfalse.
    eapply (passed_cons Scripted (init 20) _ _ _ [_] _ [_; _] _);
      [eapply never_clickable; reflexivity|].
    eapply (passed_cons Scripted (init 20) _ _ _ [_] _ [_] _);
      [eapply never_clickable; reflexivity|].
    eapply (passed_cons Scripted (init 20) _ _ _ [_] _ [] _);
      [eapply never_clickable; reflexivity|].
    apply passed_nil.
Defined.

Lemma public_operations_never_raise_run :
  solve_recaptcha_body Scripted (init 20) 30 (play faulty_case)
  = (Raise WebDriverException,
     [GetWindowHandles;
      WaitUntil 20 (presence_of_element_located "iframe[title='reCAPTCHA']");
      SwitchToFrame checkbox_iframe;
      WaitUntil 20 (element_to_be_clickable "#recaptcha-anchor")],
     played 4 faulty_case [checkbox_iframe])
  /\ exists t' w',
       solve_recaptcha Scripted (init 20) 30 (play faulty_case)
       = (Return false, t', w').
Proof.
  split; [reflexivity|].
  apply (proj2 (proj2 (public_operations_never_raise Scripted (init 20) 30 3
                         (play faulty_case)))
           WebDriverException
           [GetWindowHandles;
            WaitUntil 20
              (presence_of_element_located "iframe[title='reCAPTCHA']");
            SwitchToFrame checkbox_iframe;
            WaitUntil 20 (element_to_be_clickable "#recaptcha-anchor")]
           (played 4 faulty_case [checkbox_iframe])).
  reflexivity.
Defined.

Lemma handle_extension_tabs_switches_once_run :
  handle_extension_tabs Scripted (play easy_case)
  = (Return tt, [GetWindowHandles], played 1 easy_case [])
  /\ handle_extension_tabs Scripted (play three_tabs)
     = (Return tt,
        [GetWindowHandles; GetWindowHandles; SwitchToWindow "tab1";
         Sleep 500],
        played 3 three_tabs [])
  /\ context_switches
       (record_of (handle_extension_tabs Scripted (play three_tabs)))
     = [SwitchToWindow "tab1"].
Proof.
  split.
  - apply (proj1 (handle_extension_tabs_switches_once Scripted ["tab1"]
                    (play easy_case) (played 1 easy_case []) eq_refl)).
    reflexivity.
  - apply (proj2 (handle_extension_tabs_switches_once Scripted
                    ["tab1"; "tab2"; "tab3"]
                    (play three_tabs) (played 1 three_tabs []) eq_refl)
             (played 2 three_tabs []));
      [cbn; lia|reflexivity].
Defined.

Lemma activation_waits_before_click_run :
  well_delayed
    (snd (fst (activate_buster_extension Scripted (init 20)
                 (play first_click_times_out))))
  /\ activate_buster_extension Scripted (init 20)
       (play [Fault TimeoutException; Found buster_button; Done])
     = (Return true,
        [WaitUntil 20 (element_to_be_clickable "div.help-button-holder");
         WaitUntil 20 (element_to_be_clickable ".help-button-holder");
         Sleep 5000;
         Click buster_button],
        {| script := []; focus := [] |})
  /\ all_passed_over Scripted (init 20) (BUSTER_BUTTON_SELECTORS (init 20))
       (play only_click_times_out)
       [WaitUntil 20 (element_to_be_clickable "div.help-button-holder");
        Sleep 5000;
        Click buster_button;
        WaitUntil 20 (element_to_be_clickable ".help-button-holder");
        WaitUntil 20 (element_to_be_clickable "[class*='help-button']")]
       {| script := []; focus := [] |}.
Proof.
  destruct (activation_waits_before_click Scripted (init 20))
    as (Hdelay & Hclick & Hfalse).
  split; [apply Hdelay|]. split.
  - apply (Hclick ["div.help-button-holder"] ".help-button-holder"
             ["[class*='help-button']"]
             (play [Fault TimeoutException; Found buster_button; Done])
             [WaitUntil 20 (element_to_be_clickable "div.help-button-holder")]
             (play [Found buster_button; Done])
             (play [Done]));
      [reflexivity| |reflexivity|reflexivity].
    eapply (passed_cons Scripted (init 20) _ _ _ [_] _ [] _);
      [eapply never_clickable; reflexivity|apply passed_nil].
  - apply Hfalse. reflexivity.
Defined.

Lemma solve_all_recaptchas_no_attempt_run :
  0 <= 0
  /\ solve_all_recaptchas Scripted (init 20) 0 (play easy_case)
     = (Return false, [], play easy_case)
  /\ solve_all_recaptchas Scripted (init 20) (-2) (play easy_case)
     = (Return false, [], play easy_case).
Proof.
  split; [lia|]. split.
  - apply (solve_all_recaptchas_no_attempt Scripted (init 20) 0). lia.
  - apply (solve_all_recaptchas_no_attempt Scripted (init 20) (-2)). lia.
Defined.

Lemma instant_check_decides_the_case_run :
  exists b t w',
    solve_recaptcha Scripted (init 20) 30 (play challenge_case)
    = (Return b,
       [GetWindowHandles]
         ++ [WaitUntil 20
               (presence_of_element_located "iframe[title='reCAPTCHA']");
             SwitchToFrame checkbox_iframe;
             WaitUntil 20 (element_to_be_clickable "#recaptcha-anchor");
             Click checkbox;
             Sleep 2000;
             FindElement "#recaptcha-anchor[aria-checked='true']";
             SwitchToDefaultContent]
         ++ t ++ [SwitchToDefaultContent],
       w')
    /\ forall w6 s rest,
         switch_to_default_content Scripted
           (played 6 challenge_case [checkbox_iframe]) = (Return tt, w6) ->
         CHALLENGE_IFRAME_SELECTORS (init 20) = s :: rest ->
         exists t', t = lookup_of (init 20) s :: t'.
Proof.
  apply (instant_check_decides_the_case Scripted (init 20) 30
           (play challenge_case)
           (played 1 challenge_case []) (played 2 challenge_case [])
           (played 3 challenge_case [checkbox_iframe])
           (played 4 challenge_case [checkbox_iframe])
           (played 5 challenge_case [checkbox_iframe])
           (played 6 challenge_case [checkbox_iframe])
           [GetWindowHandles] checkbox_iframe checkbox);
    reflexivity.
Defined.

(** ** Instances of the further properties *)

Lemma attempt_waits_at_most_run :
  spent wall_clock
    (record_of (solve_recaptcha Scripted (init 20) 30 (play challenge_case)))
  <= 207500.
Proof.
  apply (attempt_waits_at_most Scripted (init 20) 30 (play challenge_case));
    cbn; lia.
Defined.

Lemma retries_wait_at_most_run :
  spent wall_clock
    (record_of (solve_all_recaptchas Scripted (init 20) 3
                  (play (no_widget ++ no_widget ++ easy_case))))
  <= 626500.
Proof.
  apply (retries_wait_at_most Scripted (init 20) 3
           (play (no_widget ++ no_widget ++ easy_case)));
    cbn; lia.
Defined.

Lemma unclickable_checkbox_aborts_run :
  solve_recaptcha Scripted (init 20) 30 (play unclickable_case)
  = (Return false,
     [GetWindowHandles;
      WaitUntil 20 (presence_of_element_located "iframe[title='reCAPTCHA']");
      SwitchToFrame checkbox_iframe;
      WaitUntil 20 (element_to_be_clickable "#recaptcha-anchor");
      SwitchToDefaultContent],
     {| script := []; focus := [] |}).
Proof.
  apply (unclickable_checkbox_aborts Scripted (init 20) 30
           (play unclickable_case)
           (played 1 unclickable_case []) (played 2 unclickable_case [])
           (played 3 unclickable_case [checkbox_iframe])
           (played 4 unclickable_case [checkbox_iframe])
           [GetWindowHandles]
           [WaitUntil 20 (element_to_be_clickable "#recaptcha-anchor")]
           checkbox_iframe);
    reflexivity.
Defined.

Lemma handle_extension_tabs_rereads_handles_run :
  handle_extension_tabs Scripted (play tabs_vanish)
  = (Raise IndexError, [GetWindowHandles; GetWindowHandles],
     played 2 tabs_vanish [])
  /\ solve_recaptcha Scripted (init 20) 30 (play tabs_vanish)
     = (Return false,
        [GetWindowHandles; GetWindowHandles; SwitchToDefaultContent],
        {| script := []; focus := [] |})
  /\ handle_extension_tabs Scripted (play tabs_change)
     = (Return tt,
        [GetWindowHandles; GetWindowHandles; SwitchToWindow "tab2";
         Sleep 500],
        played 3 tabs_change [])
  /\ context_switches
       (record_of (handle_extension_tabs Scripted (play tabs_change)))
     = [SwitchToWindow "tab2"].
Proof.
  destruct (proj2 (handle_extension_tabs_rereads_handles Scripted (init 20)
                     ["tab1"; "tab2"] (play tabs_vanish)
                     (played 1 tabs_vanish []) eq_refl)
              [] (played 2 tabs_vanish []) ltac:(cbn; lia) eq_refl)
    as (Hraise & Hsolve).
  split; [exact Hraise|]. split; [exact (Hsolve 30)|].
  exact (proj2 (handle_extension_tabs_rereads_handles Scripted (init 20)
                  ["tab1"; "tab2"] (play tabs_change)
                  (played 1 tabs_change []) eq_refl)
           ["tab2"] (played 2 tabs_change []) ltac:(cbn; lia) eq_refl).
Defined.

Lemma more_attempts_keep_success_run :
  1 <= 3
  /\ solve_all_recaptchas Scripted (init 20) 3 (play easy_case)
     = solve_recaptcha Scripted (init 20) 30 (play easy_case).
Proof.
  split; [lia|].
  apply (more_attempts_keep_success Scripted (init 20) 1 3 (play easy_case));
    [lia|reflexivity].
Defined.

Lemma missing_challenge_iframe_aborts_run :
  solve_recaptcha Scripted (init 20) 30 (play no_challenge_case)
  = (Return false,
     [GetWindowHandles;
      WaitUntil 20 (presence_of_element_located "iframe[title='reCAPTCHA']");
      SwitchToFrame checkbox_iframe;
      WaitUntil 20 (element_to_be_clickable "#recaptcha-anchor");
      Click checkbox;
      Sleep 2000;
      FindElement "#recaptcha-anchor[aria-checked='true']";
      SwitchToDefaultContent;
      WaitUntil 20
        (presence_of_element_located
           "iframe[title='recaptcha challenge expires in two minutes']");
      WaitUntil 20
        (presence_of_element_located "iframe[title='recaptcha challenge']");
      WaitUntil 20 (presence_of_element_located "iframe[src*='bframe']");
      SwitchToDefaultContent],
     {| script := []; focus := [] |}).
Proof.
  apply (missing_challenge_iframe_aborts Scripted (init 20) 30
           (play no_challenge_case)
           (played 1 no_challenge_case []) (played 2 no_challenge_case [])
           (played 3 no_challenge_case [checkbox_iframe])
           (played 4 no_challenge_case [checkbox_iframe])
           (played 5 no_challenge_case [checkbox_iframe])
           (played 6 no_challenge_case [checkbox_iframe])
           (played 7 no_challenge_case [])
           [GetWindowHandles] checkbox_iframe checkbox
           eq_refl eq_refl eq_refl eq_refl eq_refl eq_refl eq_refl
           (played 10 no_challenge_case [])
           (map (lookup_of (init 20)) (CHALLENGE_IFRAME_SELECTORS (init 20)))).
  reflexivity.
Defined.

Lemma failed_activation_aborts_run :
  solve_recaptcha Scripted (init 20) 30 (play dead_buster_case)
  = (Return false,
     [GetWindowHandles;
      WaitUntil 20 (presence_of_element_located "iframe[title='reCAPTCHA']");
      SwitchToFrame checkbox_iframe;
      WaitUntil 20 (element_to_be_clickable "#recaptcha-anchor");
      Click checkbox;
      Sleep 2000;
      FindElement "#recaptcha-anchor[aria-checked='true']";
      SwitchToDefaultContent;
      WaitUntil 20
        (presence_of_element_located
           "iframe[title='recaptcha challenge expires in two minutes']");
      SwitchToFrame challenge_iframe;
      WaitUntil 20 (element_to_be_clickable "div.help-button-holder");
      WaitUntil 20 (element_to_be_clickable ".help-button-holder");
      WaitUntil 20 (element_to_be_clickable "[class*='help-button']");
      SwitchToDefaultContent],
     {| script := []; focus := [] |}).
Proof.
  apply (failed_activation_aborts Scripted (init 20) 30
           (play dead_buster_case)
           (played 1 dead_buster_case []) (played 2 dead_buster_case [])
           (played 3 dead_buster_case [checkbox_iframe])
           (played 4 dead_buster_case [checkbox_iframe])
           (played 5 dead_buster_case [checkbox_iframe])
           (played 6 dead_buster_case [checkbox_iframe])
           (played 7 dead_buster_case [])
           [GetWindowHandles] checkbox_iframe checkbox
           eq_refl eq_refl eq_refl eq_refl eq_refl eq_refl eq_refl
           (played 8 dead_buster_case [])
           (played 9 dead_buster_case [challenge_iframe])
           (played 12 dead_buster_case [challenge_iframe])
           [WaitUntil 20
              (presence_of_element_located
                 "iframe[title='recaptcha challenge expires in two minutes']")]
           (map (button_wait_of (init 20)) (BUSTER_BUTTON_SELECTORS (init 20)))
           challenge_iframe);
    reflexivity.
Defined.

Lemma challenge_case_result_run :
  solve_recaptcha Scripted (init 20) 30 (play challenge_case)
  = (Return true,
     [GetWindowHandles;
      WaitUntil 20 (presence_of_element_located "iframe[title='reCAPTCHA']");
      SwitchToFrame checkbox_iframe;
      WaitUntil 20 (element_to_be_clickable "#recaptcha-anchor");
      Click checkbox;
      Sleep 2000;
      FindElement "#recaptcha-anchor[aria-checked='true']";
      SwitchToDefaultContent;
      WaitUntil 20
        (presence_of_element_located
           "iframe[title='recaptcha challenge expires in two minutes']");
      SwitchToFrame challenge_iframe;
      WaitUntil 20 (element_to_be_clickable "div.help-button-holder");
      Sleep 5000;
      Click buster_button;
      SwitchToDefaultContent;
      SwitchToFrame checkbox_iframe;
      WaitUntil 30
        (presence_of_element_located "#recaptcha-anchor[aria-checked='true']");
      SwitchToDefaultContent],
     {| script := []; focus := [] |})
  /\ context_switches
       (record_of (solve_recaptcha Scripted (init 20) 30 (play challenge_case)))
     = [SwitchToFrame checkbox_iframe; SwitchToDefaultContent;
        SwitchToFrame challenge_iframe; SwitchToDefaultContent;
        SwitchToFrame checkbox_iframe; SwitchToDefaultContent].
Proof.
  apply (challenge_case_result Scripted (init 20) 30
           (play challenge_case)
           (played 1 challenge_case []) (played 2 challenge_case [])
           (played 3 challenge_case [checkbox_iframe])
           (played 4 challenge_case [checkbox_iframe])
           (played 5 challenge_case [checkbox_iframe])
           (played 6 challenge_case [checkbox_iframe])
           (played 7 challenge_case [])
           [GetWindowHandles] checkbox_iframe checkbox
           eq_refl eq_refl eq_refl eq_refl eq_refl eq_refl eq_refl
           (played 8 challenge_case [])
           (played 9 challenge_case [challenge_iframe])
           (played 11 challenge_case [challenge_iframe])
           (played 12 challenge_case [])
           (played 13 challenge_case [checkbox_iframe])
           [WaitUntil 20
              (presence_of_element_located
                 "iframe[title='recaptcha challenge expires in two minutes']")]
           [WaitUntil 20 (element_to_be_clickable "div.help-button-holder");
            Sleep 5000; Click buster_button]
           challenge_iframe);
    reflexivity.
Defined.

Lemma fault_ends_the_fallback_run :
  WebDriverException <> TimeoutException
  /\ find_challenge_iframe Scripted (init 20) (play lookup_faults)
     = (Raise WebDriverException,
        [WaitUntil 20
           (presence_of_element_located
              "iframe[title='recaptcha challenge expires in two minutes']");
         WaitUntil 20
           (presence_of_element_located "iframe[title='recaptcha challenge']")],
        played 2 lookup_faults []).
Proof.
  split; [discriminate|].
  apply (proj1 (fault_ends_the_fallback Scripted (init 20) WebDriverException
                  ltac:(discriminate))
           ["iframe[title='recaptcha challenge expires in two minutes']"]
           "iframe[title='recaptcha challenge']"
           ["iframe[src*='bframe']"]
           (play lookup_faults) (played 1 lookup_faults []));
    [reflexivity| |reflexivity].
  eapply time_out_cons; [reflexivity|apply time_out_nil].
Defined.

Lemma activation_true_means_clicked_run :
  exists misses s rest t0 w1 w2 button,
    BUSTER_BUTTON_SELECTORS (init 20) = misses ++ s :: rest
    /\ all_passed_over Scripted (init 20) misses
         (play first_click_times_out) t0 w1
    /\ wait_until Scripted (timeout (init 20)) (element_to_be_clickable s) w1
       = (Return button, w2)
    /\ click Scripted button (elapse Scripted 5000 w2)
       = (Return tt, {| script := []; focus := [] |})
    /\ [WaitUntil 20 (element_to_be_clickable "div.help-button-holder");
        Sleep 5000;
        Click buster_button;
        WaitUntil 20 (element_to_be_clickable ".help-button-holder");
        Sleep 5000;
        Click other_button]
       = t0 ++ [button_wait_of (init 20) s; Sleep 5000; Click button].
Proof.
  apply (activation_true_means_clicked Scripted (init 20)
           (play first_click_times_out)).
  reflexivity.
Defined.
